(** * The SWAMI/MCM model adapter ([src/swami/__init__.py])

    A shallow embedding of the Python wrapper around the [swami.x]
    executable: the input normaliser [to_list], the length check and the
    request text built by [MCM.run], and the response parser
    [MCM._read_output].

    Python values are modelled as the code meets them: text as [string]
    (one [ascii] per code point, so text stays within code points 0..255),
    exceptions as a sum type, lists as [list], the [lengths] set as a
    [gset nat].  The child process is a node of the [outcome] tree that
    waits for the text the executable prints.  Floats are an interface
    ([FloatImpl]) of the three builtins the adapter calls on them, with
    IEEE 754 double precision as its instance ([Binary64]).

    The definitions come first (builtins, floats, the adapter, the
    vocabulary of the statements), then the lemmas, then one theorem for
    each claim C1..C10, and last the claims at concrete texts and
    inputs. *)

From Stdlib Require Import ZArith List String Ascii Lia SpecFloat DecimalString.
From stdpp Require Import gmap strings list.

Local Open Scope string_scope.

(** ** Python builtins used by the adapter *)

Module Py.

(** The exceptions the adapter's own statements and the builtins it calls
    can raise. *)
Inductive exn : Set :=
  | ValueError
  | IndexError
  | OverflowError
  | TypeError.

(** A computation that returns a value or raises. *)
Definition result (A : Type) : Type := (exn + A)%type.

Definition ok {A} (a : A) : result A := inr a.
Definition raise {A} (e : exn) : result A := inl e.

Definition bind {A B} (m : result A) (k : A -> result B) : result B :=
  match m with
  | inl e => inl e
  | inr a => k a
  end.

(** [list(map(f, xs))]: [f] is applied from left to right and the first
    exception ends the traversal. *)
Fixpoint map_list {A B} (f : A -> result B) (xs : list A) : result (list B) :=
  match xs with
  | [] => ok []
  | x :: xs' =>
      bind (f x) (fun y => bind (map_list f xs') (fun ys => ok (y :: ys)))
  end.

(** [str.isspace] of one character, for code points below 256. *)
Definition isspace (c : ascii) : bool :=
  let n := N_of_ascii c in
  ((9 <=? n) && (n <=? 13) || (28 <=? n) && (n <=? 32)
   || (n =? 133) || (n =? 160))%N.

(** [s.lstrip()], [s.rstrip()] and [s.strip()]. *)
Fixpoint lstrip (s : string) : string :=
  match s with
  | String c s' => if isspace c then lstrip s' else s
  | EmptyString => EmptyString
  end.

Fixpoint rstrip (s : string) : string :=
  match s with
  | String c s' =>
      match rstrip s' with
      | EmptyString => if isspace c then EmptyString else String c EmptyString
      | r => String c r
      end
  | EmptyString => EmptyString
  end.

Definition strip (s : string) : string := rstrip (lstrip s).

(** [s.split()] with no separator: the maximal runs of characters that are
    not whitespace, in order; no empty string is produced. *)
Fixpoint split (s : string) : list string :=
  match s with
  | EmptyString => []
  | String c s' =>
      if isspace c then split s'
      else
        match s' with
        | EmptyString => [String c EmptyString]
        | String d _ =>
            if isspace d then String c EmptyString :: split s'
            else
              match split s' with
              | t :: ts => String c t :: ts
              | [] => [String c EmptyString]
              end
        end
  end.

(** [s.split(sep)] for a separator of one character: the pieces between
    the separators, empty ones included. *)
Fixpoint split_on (sep : ascii) (s : string) : list string :=
  match s with
  | EmptyString => [EmptyString]
  | String c s' =>
      if Ascii.eqb c sep then EmptyString :: split_on sep s'
      else
        match split_on sep s' with
        | t :: ts => String c t :: ts
        | [] => [String c EmptyString]
        end
  end.

(** [sep.join(xs)]. *)
Fixpoint join (sep : string) (xs : list string) : string :=
  match xs with
  | [] => ""
  | [x] => x
  | x :: xs' => x ++ sep ++ join sep xs'
  end.

(** [str(n)] of an [int]: the decimal numeral, with [-] for a negative one. *)
Definition str_int (n : Z) : string := NilZero.string_of_int (Z.to_int n).

(** [xs[i]] for an index that is not negative. *)
Definition item {A} (xs : list A) (i : nat) : result A :=
  match nth_error xs i with
  | Some x => ok x
  | None => raise IndexError
  end.

(** The slices [xs[:n]] and [xs[n:]].  A bound past the end is clipped; a
    negative bound counts from the end of the list. *)
Definition slice_bound {A} (xs : list A) (n : Z) : nat :=
  if (n <? 0)%Z then Z.to_nat (Z.of_nat (length xs) + n) else Z.to_nat n.

Definition slice_to {A} (xs : list A) (n : Z) : list A :=
  firstn (slice_bound xs n) xs.

Definition slice_from {A} (xs : list A) (n : Z) : list A :=
  skipn (slice_bound xs n) xs.

(** [s.endswith(c)] for one character. *)
Fixpoint endswith (s : string) (c : ascii) : bool :=
  match s with
  | EmptyString => false
  | String d EmptyString => Ascii.eqb d c
  | String _ s' => endswith s' c
  end.

(** [os.path.join(a, b)] on POSIX for a relative [b]; [Path(a) / b] prints
    the same text for a normalised [a]. *)
Definition path_join (a b : string) : string :=
  match a with
  | EmptyString => b
  | _ => if endswith a "/" then a ++ b else a ++ "/" ++ b
  end.

End Py.

Import Py.

Notation "'do' x <- m ; k" := (bind m (fun x => k))
  (at level 10, x name, m at level 100, k at level 200).

(** ** Python's [float]

    The adapter converts text to floats ([float]), a float to the point
    count ([int]) and numbers to text ([str]); it does no arithmetic on
    them.  The three builtins are an interface, and [Binary64] below
    implements it for IEEE 754 double precision. *)

Class FloatImpl : Type := {
  float : Type;
  (** [float(s)] for a token [s]; [None] stands for its [ValueError]. *)
  float_of_str : string -> option float;
  (** [int(x)]: the integer part, or the exception [int] raises. *)
  int_of_float : float -> result Z;
  (** [str(x)]. *)
  str_of_float : float -> string
}.

(** [str(x)] of a float is one token: it is not empty and holds no
    whitespace. *)
Definition str_of_float_is_token `{FloatImpl} : Prop :=
  forall x : float, split (str_of_float x) = [str_of_float x].

Module Binary64.

(** *** Reading a literal *)

Definition digit_val (c : ascii) : option Z :=
  let n := Z.of_N (N_of_ascii c) in
  if ((48 <=? n) && (n <=? 57))%Z then Some (n - 48)%Z else None.

(** The rest of a [digitpart]: digits, each optionally led by one [_]. *)
Fixpoint digits_tail (s : string) : list Z * string :=
  match s with
  | String c s' =>
      match digit_val c with
      | Some d => let '(ds, r) := digits_tail s' in (d :: ds, r)
      | None =>
          if Ascii.eqb c "_" then
            match s' with
            | String c' s'' =>
                match digit_val c' with
                | Some d => let '(ds, r) := digits_tail s'' in (d :: ds, r)
                | None => ([], s)
                end
            | EmptyString => ([], s)
            end
          else ([], s)
      end
  | EmptyString => ([], s)
  end.

(** [digitpart ::= digit (["_"] digit)*] *)
Definition digitpart (s : string) : option (list Z * string) :=
  match s with
  | String c s' =>
      match digit_val c with
      | Some d => let '(ds, r) := digits_tail s' in Some (d :: ds, r)
      | None => None
      end
  | EmptyString => None
  end.

(** [number ::= [digitpart] "." digitpart | digitpart ["."]]: the digits
    before and after the point, and the text left over. *)
Definition number (s : string) : option (list Z * list Z * string) :=
  match digitpart s with
  | Some (ip, r) =>
      match r with
      | String "." r' =>
          match digitpart r' with
          | Some (fp, r'') => Some (ip, fp, r'')
          | None => Some (ip, [], r')
          end
      | _ => Some (ip, [], r)
      end
  | None =>
      match s with
      | String "." r' =>
          match digitpart r' with
          | Some (fp, r'') => Some ([], fp, r'')
          | None => None
          end
      | _ => None
      end
  end.

(** An optional sign: whether it is [-], and the text after it. *)
Definition sign (s : string) : bool * string :=
  match s with
  | String "-" s' => (true, s')
  | String "+" s' => (false, s')
  | _ => (false, s)
  end.

Definition digits_value (ds : list Z) : Z :=
  fold_left (fun acc d => 10 * acc + d)%Z ds 0%Z.

(** [exponent ::= ("e" | "E") [sign] digitpart], up to the end of the
    token; no exponent at all counts as 0. *)
Definition exponent (s : string) : option Z :=
  match s with
  | EmptyString => Some 0%Z
  | String c s' =>
      if Ascii.eqb c "e" || Ascii.eqb c "E" then
        let '(neg, s'') := sign s' in
        match digitpart s'' with
        | Some (ds, EmptyString) =>
            Some (if neg then - digits_value ds else digits_value ds)%Z
        | _ => None
        end
      else None
  end.

Definition lower (c : ascii) : ascii :=
  let n := N_of_ascii c in
  if ((65 <=? n) && (n <=? 90))%N then ascii_of_N (n + 32) else c.

Fixpoint lowercase (s : string) : string :=
  match s with
  | EmptyString => EmptyString
  | String c s' => String (lower c) (lowercase s')
  end.

(** The double nearest to [m * 10^e] (ties to even), for [0 <= m].  The
    two early exits keep the powers of ten small: past them the value is
    above every finite double, or below half the least positive one. *)
Definition of_decimal (neg : bool) (m e : Z) : spec_float :=
  if (m <=? 0)%Z then S754_zero neg
  else
    let b := Z.log2 m in
    if (0 <=? e)%Z then
      if (1100 <=? b + 3 * e)%Z then S754_infinity neg
      else binary_round 53 1024 neg (Z.to_pos (m * 10 ^ e)) 0
    else if (b + 1 + 3 * e <=? -1076)%Z then S754_zero neg
    else
      let d := (10 ^ (- e))%Z in
      let s := Z.max 0 (66 + Z.log2 d - b) in
      let q := (m * 2 ^ s / d)%Z in
      let sticky := (if (m * 2 ^ s mod d =? 0)%Z then 0 else 1)%Z in
      binary_round 53 1024 neg (Z.to_pos (2 * q + sticky)) (- s - 1).

(** [float(s)] for a token [s]:
    [[sign] (floatnumber | "inf" | "infinity" | "nan")], letters in either
    case. *)
Definition of_str (s : string) : option spec_float :=
  let '(neg, body) := sign s in
  let word := lowercase body in
  if String.eqb word "inf" || String.eqb word "infinity" then
    Some (S754_infinity neg)
  else if String.eqb word "nan" then Some S754_nan
  else
    match number body with
    | Some (ip, fp, r) =>
        match exponent r with
        | Some e =>
            Some (of_decimal neg (digits_value (ip ++ fp))
                    (e - Z.of_nat (length fp)))
        | None => None
        end
    | None => None
    end.

(** *** The integer part *)

(** [int(x)]: truncation towards zero; [nan] and the infinities raise. *)
Definition to_int (x : spec_float) : result Z :=
  match x with
  | S754_zero _ => ok 0%Z
  | S754_infinity _ => raise OverflowError
  | S754_nan => raise ValueError
  | S754_finite s m e =>
      let v := Z.shiftl (Zpos m) e in
      ok (if s then - v else v)%Z
  end.

(** *** Printing *)

(** [a / b] scaled by [10^(-p)], as a fraction. *)
Definition scaled (a b p : Z) : Z * Z :=
  if (0 <=? p)%Z then (a, b * 10 ^ p)%Z else (a * 10 ^ (- p), b)%Z.

(** The number of decimal digits of a positive integer. *)
Definition ndigits (n : Z) : Z := Z.of_nat (String.length (str_int n)).

(** The [k] with [10^k <= a / b < 10^(k+1)], for positive [a] and [b]. *)
Definition magnitude (a b : Z) : Z :=
  let k := (ndigits a - ndigits b)%Z in
  let '(a', b') := scaled a b k in
  if (b' <=? a')%Z then k else (k - 1)%Z.

Definition same_float (x y : spec_float) : bool :=
  match x, y with
  | S754_finite s m e, S754_finite s' m' e' =>
      Bool.eqb s s' && Pos.eqb m m' && Z.eqb e e'
  | _, _ => false
  end.

(** The decimal [c * 10^p] of [n] digits that reads back as [x], if there
    is one: of the two [n]-digit decimals around [x], one that reads back,
    and the nearer one when both do. *)
Definition candidate (x : spec_float) (a b k : Z) (n : Z) : option (Z * Z) :=
  let p := (k - n + 1)%Z in
  let '(a', b') := scaled a b p in
  let lo := (a' / b')%Z in
  let hi := (lo + 1)%Z in
  let rem := (a' mod b')%Z in
  let lo_ok := same_float (of_decimal false lo p) x in
  let hi_ok := same_float (of_decimal false hi p) x in
  let lo_nearer :=
    ((2 * rem <? b') || ((2 * rem =? b') && Z.even lo))%Z in
  if lo_ok && (negb hi_ok || lo_nearer) then Some (lo, p)
  else if hi_ok then Some (hi, p)
  else None.

(** The shortest such decimal with at most [n + fuel - 1] digits. *)
Fixpoint shortest_from (x : spec_float) (a b k : Z) (n : Z) (fuel : nat)
  : option (Z * Z) :=
  match fuel with
  | O => None
  | S fuel' =>
      match candidate x a b k n with
      | Some r => Some r
      | None => shortest_from x a b k (n + 1)%Z fuel'
      end
  end.

(** Zeros at the end of [c] move into the exponent. *)
Fixpoint strip_zeros (fuel : nat) (c p : Z) : Z * Z :=
  match fuel with
  | O => (c, p)
  | S fuel' =>
      if ((c mod 10 =? 0) && (0 <? c))%Z then strip_zeros fuel' (c / 10)%Z (p + 1)%Z
      else (c, p)
  end.

Fixpoint zeros (n : nat) : string :=
  match n with
  | O => ""
  | S n' => String "0" (zeros n')
  end.

(** The layout of [repr]: [digits] are the significant digits and the
    decimal point stands [decpt] places after their start.  Exponent form
    is used when [decpt <= -4] or [decpt > 16]; the exponent has a sign
    and two digits at least; a fixed-point numeral always has a digit
    after the point. *)
Definition layout (digits : string) (decpt : Z) : string :=
  let nd := Z.of_nat (String.length digits) in
  if ((decpt <=? -4) || (16 <? decpt))%Z then
    let e := (decpt - 1)%Z in
    let mant :=
      if (1 <? nd)%Z then
        substring 0 1 digits ++ "." ++ substring 1 (String.length digits - 1) digits
      else digits in
    let ee := str_int (Z.abs e) in
    mant ++ "e" ++ (if (e <? 0)%Z then "-" else "+")
         ++ (if (Z.abs e <? 10)%Z then "0" else "") ++ ee
  else if (decpt <=? 0)%Z then
    "0." ++ zeros (Z.to_nat (- decpt)) ++ digits
  else if (nd <=? decpt)%Z then
    digits ++ zeros (Z.to_nat (decpt - nd)) ++ ".0"
  else
    substring 0 (Z.to_nat decpt) digits ++ "."
      ++ substring (Z.to_nat decpt) (String.length digits - Z.to_nat decpt) digits.

(** [str(x)] and [repr(x)]: the shortest decimal that reads back as [x]. *)
Definition to_str (x : spec_float) : string :=
  match x with
  | S754_nan => "nan"
  | S754_infinity s => if s then "-inf" else "inf"
  | S754_zero s => if s then "-0.0" else "0.0"
  | S754_finite s m e =>
      let sgn := if s then "-" else "" in
      match binary_round 53 1024 false m e with
      | S754_finite _ m' e' =>
          let a := (Zpos m' * 2 ^ Z.max e' 0)%Z in
          let b := (2 ^ Z.max (- e') 0)%Z in
          let k := magnitude a b in
          match shortest_from (S754_finite false m' e') a b k 1 17 with
          | Some (c, p) =>
              let '(c', p') := strip_zeros 17 c p in
              let digits := str_int c' in
              sgn ++ layout digits (Z.of_nat (String.length digits) + p')
          | None => sgn ++ "nan"
          end
      | S754_infinity _ => sgn ++ "inf"
      | _ => sgn ++ "0.0"
      end
  end.

(** The doubles 1.0 and 2.0. *)
Definition one : spec_float := S754_finite false 4503599627370496 (-52).
Definition two : spec_float := S754_finite false 4503599627370496 (-51).

(** The double-precision instance of the interface. *)
#[export] Instance binary64 : FloatImpl := {|
  float := spec_float;
  float_of_str := of_str;
  int_of_float := to_int;
  str_of_float := to_str
|}.

End Binary64.

(** ** The adapter *)

Definition LF : string := String "010" EmptyString.

(** The [MCM] object: the paths [__init__] derives from the directory
    [pwd] that holds the module. *)
Record MCM : Set := {
  path_to_bin : string;
  path_to_data : string;
  data_dtm : string;
  data_um : string
}.

Definition __init__ (pwd : string) : MCM :=
  let path_to_bin := path_join pwd "swami.x" in
  let path_to_data := path_join pwd "data" in
  {| path_to_bin := path_to_bin;
     path_to_data := path_to_data;
     data_dtm := path_to_data ++ "/";
     data_um := path_join path_to_data "um" ++ "/" |}.

Definition fortran_bool (b : bool) : string := if b then "T" else "F".

(** What a call can end in: a value, an exception, or a child process
    started on [args] and fed [stdin], whose printed text the rest of the
    call goes on with. *)
Inductive outcome (A : Type) : Type :=
  | Return (a : A)
  | Raise (e : exn)
  | Popen (args : list string) (stdin : string) (k : string -> outcome A).

Arguments Return {A} a.
Arguments Raise {A} e.
Arguments Popen {A} args stdin k.

(** A call that ends as [r] does, starting no process. *)
Definition of_result {A} (r : result A) : outcome A :=
  match r with
  | inl e => Raise e
  | inr a => Return a
  end.

Section Adapter.

Context `{FloatImpl}.

(** *** The values a caller passes

    Numbers are Python [int]s and [float]s and NumPy scalars (an
    [np.generic]); containers are lists, tuples and NumPy arrays of
    dimension 0 or 1 holding numbers.  [PyNone] stands for an object that
    is neither a number nor iterable. *)
Inductive npscalar : Type :=
  | NpInt64 (n : Z)
  | NpFloat64 (x : float).

Inductive scalar : Type :=
  | PyInt (n : Z)
  | PyFloat (x : float)
  | NpGeneric (s : npscalar).

Inductive ndarray : Type :=
  | Array0 (s : npscalar)
  | Array1 (xs : list npscalar).

Inductive pyobj : Type :=
  | Num (v : scalar)
  | NdArray (a : ndarray)
  | PyList (xs : list scalar)
  | PyTuple (xs : list scalar)
  | PyNone.

Definition str_np (s : npscalar) : string :=
  match s with
  | NpInt64 n => str_int n
  | NpFloat64 x => str_of_float x
  end.

(** [str(v)] of a number. *)
Definition str (v : scalar) : string :=
  match v with
  | PyInt n => str_int n
  | PyFloat x => str_of_float x
  | NpGeneric s => str_np s
  end.

(** [a.tolist()]: the elements as Python numbers.  An array of dimension
    0 has no list to give and yields its one element itself. *)
Definition np_item (s : npscalar) : scalar :=
  match s with
  | NpInt64 n => PyInt n
  | NpFloat64 x => PyFloat x
  end.

Definition tolist (a : ndarray) : pyobj :=
  match a with
  | Array0 s => Num (np_item s)
  | Array1 xs => PyList (map np_item xs)
  end.

(** [len(x)] *)
Definition len (x : pyobj) : result nat :=
  match x with
  | PyList xs | PyTuple xs => ok (length xs)
  | NdArray (Array1 xs) => ok (length xs)
  | _ => raise TypeError
  end.

(** [list(map(str, x))] *)
Definition map_str (x : pyobj) : result (list string) :=
  match x with
  | PyList xs | PyTuple xs => ok (map str xs)
  | NdArray (Array1 xs) => ok (map str_np xs)
  | _ => raise TypeError
  end.

(** *** [MCM.to_list] *)
Definition to_list (x : pyobj) : result pyobj :=
  match x with
  | Num v => ok (PyList [v])
  | NdArray a => ok (tolist a)
  | PyList xs | PyTuple xs => ok (PyList xs)
  | PyNone => raise TypeError
  end.

(** *** [MCMOutput] *)

(** A field is a float or a list of floats. *)
Inductive field : Type :=
  | Scalar (x : float)
  | Seq (xs : list float).

Record MCMOutput : Type := {
  altitude : field;
  day_of_year : field;
  local_time : field;
  latitude : field;
  longitude : field;
  f107 : field;
  f107m : field;
  kp1 : field;
  kp2 : field;
  dens : field;
  temp : field;
  wmm : field;
  d_H : field;
  d_He : field;
  d_O : field;
  d_N2 : field;
  d_O2 : field;
  d_N : field;
  tinf : field;
  dens_unc : field;
  dens_std : field;
  xwind : field;
  ywind : field;
  xwind_std : field;
  ywind_std : field
}.

(** *** [MCM._read_output] *)

Definition py_float (s : string) : result float :=
  match float_of_str s with
  | Some x => ok x
  | None => raise ValueError
  end.

(** The loop [for _ in range(n)]: [values] and [arrays] are its two
    variables. *)
Fixpoint read_arrays (n : nat) (length : Z) (values : list float)
    (arrays : list field) : result (list field) :=
  match n with
  | O => ok arrays
  | S n' =>
      let arr := slice_to values length in
      let values := slice_from values length in
      do arr <- (if (length =? 1)%Z
                 then do x <- item arr 0; ok (Scalar x)
                 else ok (Seq arr));
      read_arrays n' length values (arrays ++ [arr])
  end.

(** The unpacking of [arrays] into 25 names and the [MCMOutput] built
    from them. *)
Definition unpack (arrays : list field) : result MCMOutput :=
  match arrays with
  | [altitude; day_of_year; local_time; latitude; longitude;
     f107; f107m; kp1; kp2; dens; temp; wmm; d_H; d_He; d_O;
     d_N2; d_O2; d_N; tinf; dens_unc; dens_std;
     xwind; ywind; xwind_std; ywind_std] =>
      ok {| altitude := altitude; day_of_year := day_of_year;
            local_time := local_time; latitude := latitude;
            longitude := longitude; f107 := f107; f107m := f107m;
            kp1 := kp1; kp2 := kp2; dens := dens; temp := temp;
            wmm := wmm; d_H := d_H; d_He := d_He; d_O := d_O;
            d_N2 := d_N2; d_O2 := d_O2; d_N := d_N; tinf := tinf;
            dens_unc := dens_unc; dens_std := dens_std;
            xwind := xwind; ywind := ywind;
            xwind_std := xwind_std; ywind_std := ywind_std |}
  | _ => raise ValueError
  end.

Definition _read_output (out : string) : result MCMOutput :=
  let out := strip out in
  do values <- map_list py_float (split out);
  do n <- item values 0;
  do length <- int_of_float n;
  let values := slice_from values 1 in
  do arrays <- read_arrays 25 length values [];
  unpack arrays.

(** *** [MCM.run] *)

(** The text [inputData] sent to the executable. *)
Definition inputData (self : MCM) (size : nat)
    (altitude day_of_year local_time latitude longitude
     f107 f107m kp1 kp2 : pyobj)
    (get_winds get_uncertainty : bool) : result string :=
  do altitude <- map_str altitude;
  do day_of_year <- map_str day_of_year;
  do local_time <- map_str local_time;
  do latitude <- map_str latitude;
  do longitude <- map_str longitude;
  do f107 <- map_str f107;
  do f107m <- map_str f107m;
  do kp1 <- map_str kp1;
  do kp2 <- map_str kp2;
  ok (str_int (Z.of_nat size) ++ LF
      ++ join " " altitude ++ LF
      ++ join " " day_of_year ++ LF
      ++ join " " local_time ++ LF
      ++ join " " latitude ++ LF
      ++ join " " longitude ++ LF
      ++ join " " f107 ++ LF
      ++ join " " f107m ++ LF
      ++ join " " kp1 ++ LF
      ++ join " " kp2 ++ LF
      ++ fortran_bool get_winds ++ LF
      ++ fortran_bool get_uncertainty ++ LF
      ++ data_dtm self ++ LF
      ++ data_um self ++ LF).

(** Everything [run] does before it starts the executable. *)
Definition run_request (self : MCM)
    (altitude day_of_year local_time latitude longitude
     f107 f107m kp1 kp2 : pyobj)
    (get_uncertainty get_winds : bool) : result string :=
  do altitude <- to_list altitude;
  do day_of_year <- to_list day_of_year;
  do local_time <- to_list local_time;
  do latitude <- to_list latitude;
  do longitude <- to_list longitude;
  do f107 <- to_list f107;
  do f107m <- to_list f107m;
  do kp1 <- to_list kp1;
  do kp2 <- to_list kp2;
  do n1 <- len altitude;
  do n2 <- len day_of_year;
  do n3 <- len local_time;
  do n4 <- len latitude;
  do n5 <- len longitude;
  do n6 <- len f107;
  do n7 <- len f107m;
  do n8 <- len kp1;
  do n9 <- len kp2;
  let lengths : gset nat := {[ n1; n2; n3; n4; n5; n6; n7; n8; n9 ]} in
  if decide (size lengths = 1%nat) then
    let size := n1 in
    inputData self size altitude day_of_year local_time latitude longitude
      f107 f107m kp1 kp2 get_winds get_uncertainty
  else raise ValueError.

Definition run (self : MCM)
    (altitude day_of_year local_time latitude longitude
     f107 f107m kp1 kp2 : pyobj)
    (get_uncertainty get_winds : bool) : outcome MCMOutput :=
  match run_request self altitude day_of_year local_time latitude longitude
          f107 f107m kp1 kp2 get_uncertainty get_winds with
  | inl e => Raise e
  | inr inputData =>
      Popen [path_to_bin self] inputData
        (fun out => of_result (_read_output out))
  end.

End Adapter.

(** ** Vocabulary of the statements *)

(** [c in s] for one character. *)
Fixpoint contains (s : string) (c : ascii) : bool :=
  match s with
  | EmptyString => false
  | String d s' => Ascii.eqb d c || contains s' c
  end.

Fixpoint no_space (s : string) : bool :=
  match s with
  | EmptyString => true
  | String c s' => negb (isspace c) && no_space s'
  end.

(** A token: a text that is not empty and holds no whitespace. *)
Definition is_token (s : string) : bool :=
  match s with
  | EmptyString => false
  | _ => no_space s
  end.

(** Whether every character of a text is whitespace. *)
Fixpoint blank (s : string) : bool :=
  match s with
  | EmptyString => true
  | String c s' => isspace c && blank s'
  end.

(** [s * n] *)
Fixpoint str_mul (s : string) (n : nat) : string :=
  match n with
  | O => ""
  | S n' => s ++ str_mul s n'
  end.

(** The two replies of the specification's examples: one point with
    every value 1.0, two points with the values 1.0 and 2.0. *)
Definition one_point : string := "1 " ++ str_mul "1.0 " 25.
Definition two_points : string := "2 " ++ str_mul "1.0 2.0 " 25.

(** The text made of the lines [ls], each ended by a line feed. *)
Fixpoint unlines (ls : list string) : string :=
  match ls with
  | [] => ""
  | l :: ls' => l ++ LF ++ unlines ls'
  end.

Section Vocabulary.

Context `{FloatImpl}.

(** The tokens of [out] are float literals, and [vals] are the floats
    they denote, in order. *)
Definition reads_as (out : string) (vals : list float) : Prop :=
  Forall2 (fun t v => float_of_str t = Some v) (split out) vals.

(** The [i]-th run of [n] values of [vals], counting from 0; it is
    shorter, or empty, where [vals] ends early. *)
Definition chunk (vals : list float) (n i : nat) : list float :=
  firstn n (skipn (i * n) vals).

(** A chunk as a field of the result of a run on [n] points: the bare
    value for one point, the list otherwise. *)
Definition as_field (n : nat) (xs : list float) : field :=
  match n, xs with
  | 1%nat, x :: _ => Scalar x
  | _, _ => Seq xs
  end.

(** The record whose fields, in the order of the [MCMOutput] class, are
    [f 0], ..., [f 24]. *)
Definition record_of (f : nat -> field) : MCMOutput :=
  {| altitude := f 0%nat; day_of_year := f 1%nat; local_time := f 2%nat;
     latitude := f 3%nat; longitude := f 4%nat; f107 := f 5%nat;
     f107m := f 6%nat; kp1 := f 7%nat; kp2 := f 8%nat; dens := f 9%nat;
     temp := f 10%nat; wmm := f 11%nat; d_H := f 12%nat; d_He := f 13%nat;
     d_O := f 14%nat; d_N2 := f 15%nat; d_O2 := f 16%nat; d_N := f 17%nat;
     tinf := f 18%nat; dens_unc := f 19%nat; dens_std := f 20%nat;
     xwind := f 21%nat; ywind := f 22%nat; xwind_std := f 23%nat;
     ywind_std := f 24%nat |}.

(** The 25 fields of a record, in the same order. *)
Definition fields (r : MCMOutput) : list field :=
  [altitude r; day_of_year r; local_time r; latitude r; longitude r;
   f107 r; f107m r; kp1 r; kp2 r; dens r; temp r; wmm r; d_H r; d_He r;
   d_O r; d_N2 r; d_O2 r; d_N r; tinf r; dens_unc r; dens_std r;
   xwind r; ywind r; xwind_std r; ywind_std r].

(** Whether a number is a Python [float]. *)
Definition is_pyfloat (v : scalar) : bool :=
  match v with
  | PyFloat _ => true
  | _ => false
  end.

(** The inputs [xs], once through [to_list], are the lists of numbers
    [ls]. *)
Definition normalised (xs : list pyobj) (ls : list (list scalar)) : Prop :=
  Forall2 (fun x l => to_list x = ok (PyList l)) xs ls.

(** One line of the request: the numbers of one input, each as [str]
    prints it, with one space between two of them. *)
Definition number_line (xs : list scalar) : string := join " " (map str xs).

(** The lines of the request for nine lists of numbers, in the order the
    executable reads them. *)
Definition request_lines (self : MCM) (n : nat)
    (alt doy lt lat lon f fm k1 k2 : list scalar)
    (winds uncertainty : bool) : list string :=
  [str_int (Z.of_nat n);
   number_line alt; number_line doy; number_line lt; number_line lat;
   number_line lon; number_line f; number_line fm; number_line k1;
   number_line k2;
   fortran_bool winds; fortran_bool uncertainty;
   data_dtm self; data_um self].

(** The values a field holds, in order. *)
Definition field_values (f : field) : list float :=
  match f with
  | Scalar x => [x]
  | Seq xs => xs
  end.

(** An input [to_list] makes no list of: an object that is neither a
    number nor iterable, or an array of dimension 0. *)
Definition unlistable (x : pyobj) : bool :=
  match x with
  | PyNone | NdArray (Array0 _) => true
  | _ => false
  end.

(** How many values a field holds: [None] for a bare float. *)
Definition cardinality (f : field) : option nat :=
  match f with
  | Scalar _ => None
  | Seq xs => Some (length xs)
  end.

End Vocabulary.

(** ** Facts about the string builtins *)

Module PyFacts.

Lemma app_LF (r : string) : LF ++ r = String "010" r.
Proof. reflexivity. Qed.

Lemma app_cons (c : ascii) (s t : string) : String c s ++ t = String c (s ++ t).
Proof. reflexivity. Qed.

Lemma app_empty (t : string) : EmptyString ++ t = t.
Proof. reflexivity. Qed.

Lemma no_space_app (a b : string) :
  no_space (a ++ b) = no_space a && no_space b.
Proof.
  induction a as [|c a IH]; simpl; [done|].
  rewrite IH. by destruct (isspace c).
Qed.

Lemma is_token_no_space (t : string) : is_token t = true -> no_space t = true.
Proof. by destruct t. Qed.

Lemma is_token_app_l (a b : string) :
  is_token a = true -> no_space b = true -> is_token (a ++ b) = true.
Proof.
  destruct a as [|c a]; [done|]. simpl. rewrite no_space_app.
  intros Ha Hb. apply andb_prop in Ha as [-> Ha]. by rewrite Ha, Hb.
Qed.

Lemma is_token_app_r (a b : string) :
  no_space a = true -> is_token b = true -> is_token (a ++ b) = true.
Proof.
  destruct a as [|c a]; [done|]. simpl. rewrite no_space_app.
  intros Ha Hb. apply andb_prop in Ha as [-> Ha].
  by rewrite Ha, (is_token_no_space _ Hb).
Qed.

(** The two equations of [split] on a text that is not empty. *)
Lemma split_one (c : ascii) :
  split (String c EmptyString) = if isspace c then [] else [String c EmptyString].
Proof. reflexivity. Qed.

Lemma split_two (c d : ascii) (s : string) :
  split (String c (String d s)) =
    if isspace c then split (String d s)
    else if isspace d then String c EmptyString :: split (String d s)
         else match split (String d s) with
              | t :: ts => String c t :: ts
              | [] => [String c EmptyString]
              end.
Proof. reflexivity. Qed.

Lemma split_space (c : ascii) (s : string) :
  isspace c = true -> split (String c s) = split s.
Proof. intros Hc. destruct s; [by rewrite split_one, Hc|by rewrite split_two, Hc]. Qed.

Lemma no_space_cons (c : ascii) (s : string) :
  no_space (String c s) = true -> isspace c = false /\ no_space s = true.
Proof.
  simpl. intros Hc. apply andb_prop in Hc as [Hc Hs].
  by apply negb_true_iff in Hc.
Qed.

(** A token splits into itself. *)
Lemma split_token (t : string) : is_token t = true -> split t = [t].
Proof.
  destruct t as [|c t]; [done|]. unfold is_token. revert c.
  induction t as [|d t IH]; intros c Hc; apply no_space_cons in Hc as [Hc Ht].
  - by rewrite split_one, Hc.
  - rewrite split_two, Hc, (IH d Ht).
    apply no_space_cons in Ht as [-> _]. done.
Qed.

(** A token followed by whitespace is the first piece of the split. *)
Lemma split_token_space (t : string) (c : ascii) (r : string) :
  is_token t = true -> isspace c = true ->
  split (t ++ String c r) = t :: split r.
Proof.
  intros Ht Hc. destruct t as [|a t]; [done|]. unfold is_token in Ht.
  revert a Ht. induction t as [|d t IH]; intros a Ha;
    apply no_space_cons in Ha as [Ha Ht]; rewrite app_cons.
  - by rewrite app_empty, split_two, Ha, Hc, split_space.
  - rewrite app_cons, split_two, Ha. specialize (IH d Ht).
    rewrite app_cons in IH. rewrite IH. apply no_space_cons in Ht as [-> _]. done.
Qed.

Lemma split_join (ts : list string) :
  Forall (fun t => is_token t = true) ts -> split (join " " ts) = ts.
Proof.
  induction 1 as [|t ts Ht Hts IH]; [done|].
  destruct ts as [|u ts]; [by apply split_token|].
  change (join " " (t :: u :: ts)) with (t ++ String " " (join " " (u :: ts))).
  rewrite split_token_space by done. by rewrite IH.
Qed.

(** Every piece of a split is a token. *)
Lemma split_tokens (s : string) :
  Forall (fun t => is_token t = true) (split s).
Proof.
  destruct s as [|c s]; [constructor|]. revert c.
  induction s as [|d s IH]; intros c.
  - rewrite split_one. destruct (isspace c) eqn:Hc; repeat constructor.
    simpl. by rewrite Hc.
  - rewrite split_two. specialize (IH d).
    destruct (isspace c) eqn:Hc; [done|].
    destruct (isspace d) eqn:Hd.
    { constructor; [|done]. simpl. by rewrite Hc. }
    destruct (split (String d s)) as [|t ts].
    { repeat constructor. simpl. by rewrite Hc. }
    inversion IH as [|? ? Ht Hts]; subst. constructor; [|done].
    simpl. rewrite Hc. by apply is_token_no_space.
Qed.

Lemma split_self_token (t : string) : split t = [t] -> is_token t = true.
Proof.
  intros Ht. pose proof (split_tokens t) as Hall. rewrite Ht in Hall.
  by inversion Hall.
Qed.

Lemma split_nonspace_cons (c : ascii) (s : string) :
  isspace c = false -> split (String c s) <> [].
Proof.
  intros Hc. destruct s as [|d s]; [by rewrite split_one, Hc|].
  rewrite split_two, Hc. destruct (isspace d); [done|].
  by destruct (split (String d s)).
Qed.

Lemma split_lstrip (s : string) : split (lstrip s) = split s.
Proof.
  induction s as [|c s IH]; [done|].
  cbn [lstrip]. destruct (isspace c) eqn:Hc; [|done].
  by rewrite split_space.
Qed.

Lemma rstrip_head (c : ascii) (s : string) :
  rstrip (String c s) = EmptyString \/ exists r, rstrip (String c s) = String c r.
Proof.
  simpl. destruct (rstrip s); [destruct (isspace c)|]; eauto.
Qed.

Lemma split_rstrip (s : string) : split (rstrip s) = split s.
Proof.
  destruct s as [|c s]; [done|]. revert c.
  induction s as [|d s IH]; intros c.
  - cbn [rstrip]. destruct (isspace c) eqn:Hc; [|done].
    by rewrite split_one, Hc.
  - specialize (IH d). cbn [rstrip] in *.
    destruct (rstrip_head d s) as [Hr|[r Hr]]; cbn [rstrip] in Hr;
      rewrite Hr in *; rewrite split_two.
    + destruct (isspace c) eqn:Hc; [done|].
      rewrite split_one, Hc, <- IH.
      destruct (isspace d) eqn:Hd; [done|].
      exfalso. by apply (split_nonspace_cons d s Hd).
    + by rewrite split_two, IH.
Qed.

Lemma split_strip (s : string) : split (strip s) = split s.
Proof. unfold strip. by rewrite split_rstrip, split_lstrip. Qed.


(** *** Lines *)

Lemma contains_app (a b : string) (c : ascii) :
  contains (a ++ b) c = contains a c || contains b c.
Proof.
  induction a as [|d a IH]; [done|].
  rewrite app_cons. simpl. rewrite IH. by destruct (Ascii.eqb d c).
Qed.

Lemma no_space_contains (s : string) (c : ascii) :
  no_space s = true -> isspace c = true -> contains s c = false.
Proof.
  intros Hs Hc. induction s as [|d s IH]; [done|].
  apply no_space_cons in Hs as [Hd Hs]. simpl. rewrite (IH Hs).
  destruct (Ascii.eqb_spec d c) as [->|]; [congruence|done].
Qed.

Lemma split_on_cons (sep : ascii) (s : string) :
  exists t ts, split_on sep s = t :: ts.
Proof.
  destruct s as [|c s]; simpl; [eauto|].
  destruct (Ascii.eqb c sep); [eauto|]. destruct (split_on sep s); eauto.
Qed.

(** A text without the separator, then the separator: one piece. *)
Lemma split_on_line (sep : ascii) (l r : string) :
  contains l sep = false ->
  split_on sep (l ++ String sep r) = l :: split_on sep r.
Proof.
  induction l as [|c l IH]; intros Hl.
  - rewrite app_empty. simpl. by rewrite Ascii.eqb_refl.
  - simpl in Hl. apply orb_false_elim in Hl as [Hc Hl].
    rewrite app_cons. simpl. by rewrite Hc, (IH Hl).
Qed.

Lemma contains_join (ts : list string) (c : ascii) :
  Forall (fun t => contains t c = false) ts ->
  contains " " c = false ->
  contains (join " " ts) c = false.
Proof.
  intros Hts Hsp. induction Hts as [|t ts Ht Hts IH]; [done|].
  destruct ts as [|u ts]; [done|].
  change (join " " (t :: u :: ts)) with (t ++ " " ++ join " " (u :: ts)).
  by rewrite !contains_app, Ht, Hsp, IH.
Qed.

(** *** Numerals *)

Lemma no_space_uint (d : Decimal.uint) :
  no_space (NilEmpty.string_of_uint d) = true.
Proof. induction d; simpl; done. Qed.

Lemma str_int_token (n : Z) : is_token (str_int n) = true.
Proof.
  unfold str_int, NilZero.string_of_int.
  destruct (Z.to_int n) as [d|d]; simpl.
  - unfold NilZero.string_of_uint. destruct d; try done;
      simpl; apply no_space_uint.
  - unfold NilZero.string_of_uint. destruct d; try done;
      simpl; apply no_space_uint.
Qed.

(** *** Lists and slices *)

Lemma slice_to_nat {A} (xs : list A) (n : nat) :
  slice_to xs (Z.of_nat n) = firstn n xs.
Proof.
  unfold slice_to, slice_bound.
  destruct (Z.ltb_spec (Z.of_nat n) 0); [lia|]. by rewrite Nat2Z.id.
Qed.

Lemma slice_from_nat {A} (xs : list A) (n : nat) :
  slice_from xs (Z.of_nat n) = skipn n xs.
Proof.
  unfold slice_from, slice_bound.
  destruct (Z.ltb_spec (Z.of_nat n) 0); [lia|]. by rewrite Nat2Z.id.
Qed.

Lemma map_list_ok {A B} (f : A -> result B) (xs : list A) (ys : list B) :
  Forall2 (fun x y => f x = ok y) xs ys -> map_list f xs = ok ys.
Proof.
  induction 1 as [|x y xs ys Hx _ IH]; [done|].
  simpl. by rewrite Hx, IH.
Qed.

Lemma map_list_inv {A B} (f : A -> result B) (xs : list A) (ys : list B) :
  map_list f xs = ok ys -> Forall2 (fun x y => f x = ok y) xs ys.
Proof.
  revert ys. induction xs as [|x xs IH]; intros ys; simpl.
  - intros [= <-]. constructor.
  - destruct (f x) as [e|y] eqn:Hx; [done|]. simpl.
    destruct (map_list f xs) as [e|ys'] eqn:Hxs; [done|]. simpl.
    intros [= <-]. constructor; [done|]. by apply IH.
Qed.

(** [list(map(f, xs))] raises what [f] raises on the first element it
    fails on. *)
Lemma map_list_raise {A B} (f : A -> result B) (xs : list A) (x : A) (e : exn) :
  In x xs -> (forall y e', f y = raise e' -> e' = e) -> f x = raise e ->
  map_list f xs = raise e.
Proof.
  intros Hin Hone Hx. induction xs as [|y xs IH]; [done|].
  simpl. destruct (f y) as [e'|b] eqn:Hy.
  { by rewrite (Hone y e' Hy). }
  simpl. destruct Hin as [->|Hin]; [unfold raise in Hx; congruence|].
  by rewrite (IH Hin).
Qed.

End PyFacts.

(** ** The double-precision instance prints tokens *)

Module Binary64Facts.

Import PyFacts Binary64.

Lemma no_space_substring (s : string) (i n : nat) :
  no_space s = true -> no_space (substring i n s) = true.
Proof.
  revert i n. induction s as [|c s IH]; intros i n Hs.
  - by destruct i, n.
  - apply no_space_cons in Hs as [Hc Hs].
    destruct i as [|i]; [destruct n as [|n]|]; simpl; auto.
    by rewrite Hc, IH.
Qed.

Lemma no_space_zeros (n : nat) : no_space (zeros n) = true.
Proof. induction n; [done|]. simpl. by rewrite IHn. Qed.

Lemma no_space_str_int (n : Z) : no_space (str_int n) = true.
Proof. apply is_token_no_space, str_int_token. Qed.

Lemma is_token_intro (s : string) :
  no_space s = true -> s <> EmptyString -> is_token s = true.
Proof. by destruct s. Qed.

Lemma app_nonempty_r (a b : string) : b <> EmptyString -> a ++ b <> EmptyString.
Proof. destruct a, b; done. Qed.

Lemma layout_token (digits : string) (decpt : Z) :
  no_space digits = true -> is_token (layout digits decpt) = true.
Proof.
  intros Hd. unfold layout.
  repeat match goal with
         | |- context [if ?b then _ else _] => destruct b
         end;
    (apply is_token_intro;
     [ rewrite ?no_space_app, ?no_space_substring, ?no_space_zeros,
         ?no_space_str_int, ?Hd by done; done
     | repeat first [ discriminate | apply app_nonempty_r ] ]).
Qed.

Lemma to_str_token (x : spec_float) : is_token (to_str x) = true.
Proof.
  destruct x as [s|s| |s m e]; try (by destruct s); [done|].
  unfold to_str.
  assert (Hs : no_space (if s then "-" else "") = true) by by destruct s.
  destruct (binary_round 53 1024 false m e) as [?|?| |? m' e'];
    try (by apply is_token_app_r).
  destruct (shortest_from _ _ _ _ _ _) as [[c p]|];
    [|by apply is_token_app_r].
  destruct (strip_zeros 17 c p) as [c' p'].
  apply is_token_app_r; [done|]. apply layout_token, no_space_str_int.
Qed.

(** [str] of a double is one token. *)
Lemma binary64_str_of_float_is_token : str_of_float_is_token (H := binary64).
Proof. intros x. apply split_token, to_str_token. Qed.

End Binary64Facts.

Local Open Scope list_scope.

(** ** Facts about the adapter *)

Section AdapterFacts.

Context `{FloatImpl}.

Import PyFacts.

(** *** The chunks *)

Lemma chunk_0 (vals : list float) (n : nat) : chunk vals n 0 = firstn n vals.
Proof. reflexivity. Qed.

Lemma chunk_skipn (vals : list float) (n i : nat) :
  chunk (skipn n vals) n i = chunk vals n (S i).
Proof.
  unfold chunk. rewrite skipn_skipn. do 2 f_equal. lia.
Qed.

Lemma chunk_length (vals : list float) (n i : nat) :
  S i * n <= length vals -> length (chunk vals n i) = n.
Proof.
  intros Hle. unfold chunk. rewrite length_firstn, length_skipn. lia.
Qed.

Lemma chunk_length_le (vals : list float) (n i : nat) :
  length (chunk vals n i) <= n.
Proof. unfold chunk. rewrite length_firstn. lia. Qed.

Lemma chunk_app (vals extra : list float) (n i : nat) :
  S i * n <= length vals -> chunk (vals ++ extra) n i = chunk vals n i.
Proof.
  intros Hle. unfold chunk.
  rewrite skipn_app, firstn_app, length_skipn.
  replace (n - (length vals - i * n))%nat with 0%nat by lia.
  replace (i * n - length vals)%nat with 0%nat by lia.
  by rewrite app_nil_r.
Qed.

Lemma as_field_seq (n : nat) (xs : list float) :
  n <> 1%nat -> as_field n xs = Seq xs.
Proof. by destruct n as [|[|n]]. Qed.

(** *** The loop of [_read_output] *)

Lemma map_seq_S {A} (f : nat -> A) (k : nat) :
  map f (seq 1 k) = map (fun i => f (S i)) (seq 0 k).
Proof. by rewrite <- seq_shift, map_map. Qed.

(** With a count other than 1 the loop never raises: each round cuts
    what is there. *)
Lemma read_arrays_seq (k n : nat) (values : list float) (arrays : list field) :
  n <> 1%nat ->
  read_arrays k (Z.of_nat n) values arrays =
    ok (arrays ++ map (fun i => Seq (chunk values n i)) (seq 0 k)).
Proof.
  intros Hn. revert values arrays.
  induction k as [|k IH]; intros values arrays.
  - simpl. by rewrite app_nil_r.
  - cbn [read_arrays].
    destruct (Z.eqb_spec (Z.of_nat n) 1) as [?|_]; [lia|].
    rewrite slice_to_nat, slice_from_nat. cbn [bind ok].
    rewrite IH. cbn [seq map]. rewrite map_seq_S, chunk_0, <- app_assoc.
    do 3 f_equal. apply map_ext. intros i. by rewrite chunk_skipn.
Qed.

(** With the count 1 each round takes one value, and there must be one. *)
Lemma read_arrays_one_cons (k : nat) (x : float) (values : list float)
    (arrays : list field) :
  read_arrays (S k) 1 (x :: values) arrays =
    read_arrays k 1 values (arrays ++ [Scalar x]).
Proof. reflexivity. Qed.

Lemma read_arrays_one_nil (k : nat) (arrays : list field) :
  read_arrays (S k) 1 [] arrays = raise IndexError.
Proof. reflexivity. Qed.

Lemma read_arrays_one (k : nat) (values : list float) (arrays : list field) :
  k <= length values ->
  read_arrays k 1 values arrays =
    ok (arrays ++ map (fun i => as_field 1 (chunk values 1 i)) (seq 0 k)).
Proof.
  revert values arrays.
  induction k as [|k IH]; intros values arrays Hk.
  - simpl. by rewrite app_nil_r.
  - destruct values as [|x values]; [simpl in Hk; lia|].
    rewrite read_arrays_one_cons. rewrite IH; [|simpl in Hk; lia].
    cbn [seq map]. by rewrite map_seq_S, <- app_assoc.
Qed.

Lemma read_arrays_one_short (k : nat) (values : list float) (arrays : list field) :
  length values < k -> read_arrays k 1 values arrays = raise IndexError.
Proof.
  revert values arrays.
  induction k as [|k IH]; intros values arrays Hk; [lia|].
  destruct values as [|x values]; [done|].
  rewrite read_arrays_one_cons. apply IH. simpl in Hk. lia.
Qed.

Lemma read_arrays_one_scalars (k : nat) (values : list float)
    (arrays result : list field) :
  read_arrays k 1 values arrays = ok result ->
  Forall (fun f => cardinality f = None) arrays ->
  Forall (fun f => cardinality f = None) result.
Proof.
  revert values arrays.
  induction k as [|k IH]; intros values arrays.
  - by intros [= <-].
  - destruct values as [|x values]; [done|]. rewrite read_arrays_one_cons.
    intros Hr Ha. apply (IH _ _ Hr). apply Forall_app. by repeat constructor.
Qed.

Lemma read_arrays_chunks (k n : nat) (values : list float) (arrays : list field) :
  n <> 1%nat \/ k <= length values ->
  read_arrays k (Z.of_nat n) values arrays =
    ok (arrays ++ map (fun i => as_field n (chunk values n i)) (seq 0 k)).
Proof.
  destruct (decide (n = 1%nat)) as [->|Hn]; intros Hk.
  - destruct Hk as [?|Hk]; [done|]. by apply read_arrays_one.
  - rewrite read_arrays_seq by done. do 2 f_equal.
    apply map_ext. intros i. by rewrite as_field_seq.
Qed.

(** *** Reading the tokens *)

Lemma py_float_ok (t : string) (v : float) :
  py_float t = ok v <-> float_of_str t = Some v.
Proof. unfold py_float. destruct (float_of_str t); split; by intros [= ->]. Qed.

Lemma py_float_raise (t : string) (e : exn) :
  py_float t = raise e -> e = ValueError.
Proof. unfold py_float. destruct (float_of_str t); by intros [= <-]. Qed.

Lemma reads_as_values (out : string) (vals : list float) :
  reads_as out vals <-> map_list py_float (split (strip out)) = ok vals.
Proof.
  rewrite split_strip. unfold reads_as. split.
  - intros Hv. apply map_list_ok.
    eapply Forall2_impl; [exact Hv|]. intros t v. apply py_float_ok.
  - intros Hv. apply map_list_inv in Hv.
    eapply Forall2_impl; [exact Hv|]. intros t v. apply py_float_ok.
Qed.

Lemma unpack_fields (arrays : list field) (r : MCMOutput) :
  unpack arrays = ok r -> arrays = fields r.
Proof.
  unfold unpack.
  do 26 (destruct arrays as [|? arrays]; try discriminate).
  by intros [= <-].
Qed.

(** The parser on a text of float literals whose first one is the count
    [n]: with [n] other than 1, or with 25 values at hand, it returns the
    record of the 25 chunks. *)
Lemma read_output_record (out : string) (v0 : float) (vals : list float) (n : nat) :
  reads_as out (v0 :: vals) ->
  int_of_float v0 = ok (Z.of_nat n) ->
  n <> 1%nat \/ 25 <= length vals ->
  _read_output out = ok (record_of (fun i => as_field n (chunk vals n i))).
Proof.
  intros Hv Hn Hlen. unfold _read_output.
  apply reads_as_values in Hv. rewrite Hv. cbn [bind ok item nth_error].
  rewrite Hn. cbn [bind ok].
  change (slice_from (v0 :: vals) 1) with vals.
  by rewrite read_arrays_chunks.
Qed.

Lemma record_of_ext (f g : nat -> field) :
  (forall i, i < 25 -> f i = g i) -> record_of f = record_of g.
Proof.
  intros Hfg. unfold record_of. by rewrite !Hfg by lia.
Qed.

Lemma fields_record_of (f : nat -> field) :
  fields (record_of f) = map f (seq 0 25).
Proof. reflexivity. Qed.

End AdapterFacts.

Module PathFacts.

Import PyFacts.

Lemma app_assoc_str (a b c : string) : ((a ++ b) ++ c = a ++ (b ++ c))%string.
Proof. induction a as [|x a IH]; [done|]. by rewrite !app_cons, IH. Qed.

Lemma endswith_app (a b : string) (c : ascii) :
  b <> EmptyString -> endswith (a ++ b)%string c = endswith b c.
Proof.
  intros Hb. induction a as [|x a IH]; [done|].
  rewrite app_cons. cbn [endswith]. rewrite IH.
  destruct (a ++ b)%string eqn:Hab; [|done].
  destruct a, b; done.
Qed.

Lemma path_join_suffix (a b : string) :
  exists p, path_join a b = (p ++ b)%string.
Proof.
  unfold path_join. destruct a as [|x a]; [by exists EmptyString|].
  destruct (endswith _ _).
  - by exists (String x a).
  - exists (String x a ++ "/")%string. by rewrite app_assoc_str.
Qed.


(** The two data directories that [__init__] derives. *)
Lemma data_dirs (pwd : string) :
  endswith (data_dtm (__init__ pwd)) "/" = true
  /\ endswith (data_um (__init__ pwd)) "/" = true
  /\ data_um (__init__ pwd) = (data_dtm (__init__ pwd) ++ "um/")%string.
Proof.
  cbn [__init__ data_dtm data_um].
  destruct (path_join_suffix pwd "data") as [p Hp].
  assert (Hjoin : path_join (path_join pwd "data") "um"
                  = (path_join pwd "data" ++ "/" ++ "um")%string).
  { unfold path_join at 1. rewrite Hp, endswith_app by done.
    destruct (p ++ "data")%string eqn:Hpd; [by destruct p|done]. }
  rewrite Hjoin, !endswith_app by done. repeat split.
  by rewrite !app_assoc_str.
Qed.



(** Lines that hold no line feed are the first pieces of the text. *)
Lemma split_on_unlines_app (ls : list string) (r : string) :
  Forall (fun l => contains l "010" = false) ls ->
  split_on "010" (unlines ls ++ r)%string = ls ++ split_on "010" r.
Proof.
  induction 1 as [|l ls Hl _ IH]; [done|].
  cbn [unlines]. rewrite app_LF, app_assoc_str, app_cons.
  rewrite split_on_line by done. by rewrite IH.
Qed.


Lemma unlines_app (ls ls' : list string) :
  unlines (ls ++ ls') = (unlines ls ++ unlines ls')%string.
Proof.
  induction ls as [|l ls IH]; [done|].
  cbn [unlines app]. by rewrite IH, !app_assoc_str.
Qed.

End PathFacts.

Section RunFacts.

Context `{FloatImpl}.

Import PyFacts PathFacts.

(** The set of nine lengths has one element exactly when they agree. *)
Lemma lengths_size_one (n1 n2 n3 n4 n5 n6 n7 n8 n9 : nat) :
  size ({[ n1; n2; n3; n4; n5; n6; n7; n8; n9 ]} : gset nat) = 1%nat
  <-> Forall (fun n => n = n1) [n2; n3; n4; n5; n6; n7; n8; n9].
Proof.
  split.
  - intros Hsize.
    repeat constructor; apply (size_singleton_inv _ _ _ Hsize); set_solver.
  - intros Hall. repeat (apply Forall_cons in Hall as [-> Hall]).
    rewrite !(idemp_L (∪)). apply size_singleton.
Qed.

Lemma str_np_token (s : npscalar) :
  str_of_float_is_token -> is_token (str_np s) = true.
Proof.
  intros Hf. destruct s as [n|x]; simpl.
  - apply str_int_token.
  - apply split_self_token, Hf.
Qed.

(** Every number prints as one token. *)
Lemma str_token (v : scalar) :
  str_of_float_is_token -> is_token (str v) = true.
Proof.
  intros Hf. destruct v as [n|x|s]; simpl.
  - apply str_int_token.
  - apply split_self_token, Hf.
  - by apply str_np_token.
Qed.

Lemma number_line_tokens (xs : list scalar) :
  str_of_float_is_token -> split (number_line xs) = map str xs.
Proof.
  intros Hf. apply split_join, Forall_map, Forall_forall.
  intros v _. by apply str_token.
Qed.

Lemma number_line_one_line (xs : list scalar) :
  str_of_float_is_token -> contains (number_line xs) "010" = false.
Proof.
  intros Hf. apply contains_join; [|done].
  apply Forall_map, Forall_forall. intros v _.
  apply no_space_contains; [|done]. by apply is_token_no_space, str_token.
Qed.

(** What [run] sends, or raises, once the nine inputs are lists. *)
Lemma run_request_lists (self : MCM)
    (x1 x2 x3 x4 x5 x6 x7 x8 x9 : pyobj)
    (l1 l2 l3 l4 l5 l6 l7 l8 l9 : list scalar)
    (get_uncertainty get_winds : bool) :
  normalised [x1; x2; x3; x4; x5; x6; x7; x8; x9]
             [l1; l2; l3; l4; l5; l6; l7; l8; l9] ->
  run_request self x1 x2 x3 x4 x5 x6 x7 x8 x9 get_uncertainty get_winds =
    if decide (size ({[ length l1; length l2; length l3; length l4;
                        length l5; length l6; length l7; length l8;
                        length l9 ]} : gset nat) = 1%nat)
    then ok (unlines (request_lines self (length l1)
                        l1 l2 l3 l4 l5 l6 l7 l8 l9
                        get_winds get_uncertainty))
    else raise ValueError.
Proof.
  unfold normalised. intros Hn.
  repeat match goal with
         | Hn : Forall2 _ (_ :: _) (_ :: _) |- _ =>
             apply Forall2_cons in Hn as [? Hn]
         end.
  unfold run_request.
  repeat match goal with
         | Hx : to_list _ = _ |- _ => rewrite Hx; clear Hx
         end.
  cbn [bind ok len]. by destruct (decide _).
Qed.

End RunFacts.

(** ** The response parser *)

Section ParserClaims.

Context `{FloatImpl}.

Import PyFacts.

(** C1.  A text whose first token is the count [n >= 1], followed by at
    least [25 * n] float literals: the parser returns the record whose
    fields, in the order altitude, day_of_year, local_time, latitude,
    longitude, f107, f107m, kp1, kp2, dens, temp, wmm, d_H, d_He, d_O,
    d_N2, d_O2, d_N, tinf, dens_unc, dens_std, xwind, ywind, xwind_std,
    ywind_std, are the 25 consecutive chunks of [n] values after the
    count; for [n = 1] each field is the bare value. *)
Theorem read_output_chunks (out : string) (v0 : float) (vals : list float)
    (n : nat) :
  reads_as out (v0 :: vals) ->
  int_of_float v0 = ok (Z.of_nat n) ->
  1 <= n ->
  25 * n <= length vals ->
  _read_output out = ok (record_of (fun i => as_field n (chunk vals n i)))
  /\ (forall i, i < 25 -> length (chunk vals n i) = n)
  /\ (n = 1%nat ->
      forall i, i < 25 -> exists x, chunk vals n i = [x] /\
                                    as_field n (chunk vals n i) = Scalar x).
Proof.
  intros Hv Hn Hpos Hlen. split; [|split].
  - apply (read_output_record out v0 vals n Hv Hn). lia.
  - intros i Hi. apply chunk_length. nia.
  - intros -> i Hi.
    pose proof (chunk_length vals 1 i ltac:(lia)) as Hc.
    destruct (chunk vals 1 i) as [|x [|y l]]; try discriminate. by exists x.
Qed.

(** C4, as amended.  A text of float literals whose first one is the
    count [n], with fewer than [25 * n] values after it: for [n = 1] the
    parser raises [IndexError]; for [n >= 2] it raises nothing and returns
    the record of the chunks cut from the values that are there, the last
    of them shorter than [n]. *)
Theorem read_output_too_few (out : string) (v0 : float) (vals : list float)
    (n : nat) :
  reads_as out (v0 :: vals) ->
  int_of_float v0 = ok (Z.of_nat n) ->
  length vals < 25 * n ->
  (n = 1%nat -> _read_output out = raise IndexError)
  /\ (2 <= n ->
      _read_output out = ok (record_of (fun i => Seq (chunk vals n i)))
      /\ length (chunk vals n 24) < n).
Proof.
  intros Hv Hn Hlen. split.
  - intros ->. unfold _read_output.
    apply reads_as_values in Hv. rewrite Hv. cbn [bind ok item nth_error].
    rewrite Hn. cbn [bind ok].
    change (slice_from (v0 :: vals) 1) with vals.
    rewrite read_arrays_one_short; [done|lia].
  - intros Hn2. split.
    + rewrite (read_output_record out v0 vals n Hv Hn) by lia.
      f_equal. apply record_of_ext. intros i _. apply as_field_seq. lia.
    + unfold chunk. rewrite length_firstn, length_skipn. lia.
Qed.

(** C5, as amended.  Whenever the parser returns a record, the text was
    made of float literals, the first one a count [n], and the record has
    its 25 fields; if [n] is 1, all of them are bare values; if [n] is
    another count that is not negative and at least [25 * n] values
    follow it, all of them are lists of [n] values.  If [n] is at least 2
    and fewer than [25 * n] values follow it, every field is a list of at
    most [n] values; the first field and the last then differ in length
    as soon as one value follows the count, and all 25 fields are empty
    when none does. *)
Theorem read_output_cardinality (out : string) (r : MCMOutput) :
  _read_output out = ok r ->
  exists (v0 : float) (vals : list float) (n : Z),
    reads_as out (v0 :: vals) /\ int_of_float v0 = ok n /\
    (n = 1%Z -> Forall (fun f => cardinality f = None) (fields r)) /\
    (forall k : nat, n = Z.of_nat k -> k <> 1%nat -> 25 * k <= length vals ->
       Forall (fun f => cardinality f = Some k) (fields r)) /\
    (forall k : nat, n = Z.of_nat k -> 2 <= k -> length vals < 25 * k ->
       Forall (fun f => exists m : nat, cardinality f = Some m /\ m <= k)
         (fields r)
       /\ (0 < length vals ->
           cardinality (altitude r) <> cardinality (ywind_std r))
       /\ (length vals = 0%nat ->
           Forall (fun f => cardinality f = Some 0%nat) (fields r))) /\
    length (fields r) = 25%nat.
Proof.
  unfold _read_output. intros Hr.
  destruct (map_list py_float (split (strip out))) as [e|values] eqn:Hv;
    [done|].
  apply reads_as_values in Hv.
  destruct values as [|v0 vals]; [done|]. cbn [bind ok item nth_error] in Hr.
  destruct (int_of_float v0) as [e|n] eqn:Hn; [done|]. cbn [bind ok] in Hr.
  change (slice_from (v0 :: vals) 1) with vals in Hr.
  destruct (read_arrays 25 n vals []) as [e|arrays] eqn:Ha; [done|].
  cbn [bind] in Hr. apply unpack_fields in Hr. subst arrays.
  exists v0, vals, n. split; [done|]. split; [done|].
  split; [|split; [|split; [|done]]].
  - intros ->. by apply (read_arrays_one_scalars _ _ _ _ Ha).
  - intros k -> Hk Hlen. rewrite read_arrays_seq in Ha by done.
    rewrite app_nil_l in Ha. unfold ok in Ha.
    replace (fields r) with (map (fun i => Seq (chunk vals k i)) (seq 0 25))
      by congruence.
    apply Forall_map, Forall_forall.
    intros i Hi%list_elem_of_In%in_seq. simpl. f_equal. apply chunk_length. nia.
  - intros k -> Hk Hlen. rewrite read_arrays_seq in Ha by lia.
    rewrite app_nil_l in Ha. unfold ok in Ha.
    assert (fields r = map (fun i => Seq (chunk vals k i)) (seq 0 25)) as Hf
      by congruence.
    clear Ha. split; [|split].
    + rewrite Hf. apply Forall_map, Forall_forall.
      intros i _. simpl. eexists. split; [reflexivity|].
      apply chunk_length_le.
    + intros Hpos.
      assert (altitude r = Seq (chunk vals k 0)) as ->
        by exact (f_equal (fun l => nth 0 l (Seq [])) Hf).
      assert (ywind_std r = Seq (chunk vals k 24)) as ->
        by exact (f_equal (fun l => nth 24 l (Seq [])) Hf).
      simpl. intros Heq. injection Heq as Heq. revert Heq.
      unfold chunk. rewrite !length_take, !length_drop. lia.
    + intros Hnil. destruct vals; [|done]. rewrite Hf.
      apply Forall_map, Forall_forall. intros i _. simpl. f_equal.
      unfold chunk. rewrite length_take, length_drop. simpl. lia.
Qed.

(** C6.  A text one of whose tokens is no float literal: the parser
    raises [ValueError], the exception of [float]. *)
Theorem read_output_bad_token (out t : string) :
  In t (split out) ->
  float_of_str t = None ->
  _read_output out = raise ValueError.
Proof.
  intros Hin Ht. unfold _read_output.
  rewrite split_strip.
  rewrite (map_list_raise py_float _ t ValueError); [done|done| |].
  - intros y e. apply py_float_raise.
  - unfold py_float. by rewrite Ht.
Qed.

(** C9, as amended.  A text of float literals whose first one is the
    count [n], then [25 * n] values, then any further float literals:
    the parser returns the record of the chunks of the first [25 * n]
    values, the same record as for the text without the further ones. *)
Theorem read_output_surplus (out out' : string) (v0 : float)
    (vals extra : list float) (n : nat) :
  reads_as out (v0 :: vals ++ extra) ->
  reads_as out' (v0 :: vals) ->
  int_of_float v0 = ok (Z.of_nat n) ->
  length vals = (25 * n)%nat ->
  _read_output out = ok (record_of (fun i => as_field n (chunk vals n i)))
  /\ _read_output out = _read_output out'.
Proof.
  intros Hv Hv' Hn Hlen.
  assert (Hout' : _read_output out' =
                  ok (record_of (fun i => as_field n (chunk vals n i)))).
  { apply (read_output_record out' v0 vals n Hv' Hn). lia. }
  assert (Hout : _read_output out =
                 ok (record_of (fun i => as_field n (chunk vals n i)))).
  { rewrite (read_output_record out v0 (vals ++ extra) n Hv Hn).
    - f_equal. apply record_of_ext. intros i Hi.
      rewrite chunk_app; [done|nia].
    - rewrite length_app. lia. }
  split; [done|]. by rewrite Hout, Hout'.
Qed.

End ParserClaims.

(** ** The request *)

Section RunClaims.

Context `{FloatImpl}.

Import PyFacts PathFacts.

(** C7, as amended.  [to_list] turns a number into the list of that one
    number, a NumPy array of dimension 1 into the list of its elements in
    order, and a list or a tuple into a list of the same elements in the
    same order; it raises nothing on these, and it makes no [int] a
    [float]. *)
Theorem to_list_shapes (v : scalar) (xs : list scalar) (a : list npscalar) :
  to_list (Num v) = ok (PyList [v])
  /\ to_list (NdArray (Array1 a)) = ok (PyList (map np_item a))
  /\ to_list (PyList xs) = ok (PyList xs)
  /\ to_list (PyTuple xs) = ok (PyList xs).
Proof. done. Qed.

(** On an array of dimension 0 [to_list] hands back the number inside
    it, which is no list; [len] then raises and [run] ends there. *)
Lemma to_list_array0 (s : npscalar) :
  to_list (NdArray (Array0 s)) = ok (Num (np_item s))
  /\ len (Num (np_item s)) = raise TypeError
  /\ forall (self : MCM) (x2 x3 x4 x5 x6 x7 x8 x9 : pyobj)
            (l2 l3 l4 l5 l6 l7 l8 l9 : list scalar) (u w : bool),
       normalised [x2; x3; x4; x5; x6; x7; x8; x9]
                  [l2; l3; l4; l5; l6; l7; l8; l9] ->
       run self (NdArray (Array0 s)) x2 x3 x4 x5 x6 x7 x8 x9 u w
       = Raise TypeError.
Proof.
  repeat split. intros self x2 x3 x4 x5 x6 x7 x8 x9 l2 l3 l4 l5 l6 l7 l8 l9 u w Hn.
  unfold normalised in Hn.
  repeat match goal with
         | Hn : Forall2 _ (_ :: _) (_ :: _) |- _ =>
             apply Forall2_cons in Hn as [? Hn]
         end.
  unfold run, run_request. cbn [to_list tolist bind ok].
  repeat match goal with
         | Hx : to_list _ = _ |- _ => rewrite Hx; clear Hx
         end.
  reflexivity.
Qed.

(** C3.  Once the nine inputs are lists: if two of them differ in
    length, [run] raises [ValueError] and starts no process; if all have
    one length, [run] raises nothing and starts the executable. *)
Theorem run_checks_lengths (self : MCM)
    (x1 x2 x3 x4 x5 x6 x7 x8 x9 : pyobj)
    (l1 l2 l3 l4 l5 l6 l7 l8 l9 : list scalar)
    (get_uncertainty get_winds : bool) :
  normalised [x1; x2; x3; x4; x5; x6; x7; x8; x9]
             [l1; l2; l3; l4; l5; l6; l7; l8; l9] ->
  let ns := map (@length scalar) [l1; l2; l3; l4; l5; l6; l7; l8; l9] in
  ((exists n m, In n ns /\ In m ns /\ n <> m) ->
   run self x1 x2 x3 x4 x5 x6 x7 x8 x9 get_uncertainty get_winds
   = Raise ValueError)
  /\ ((forall n m, In n ns -> In m ns -> n = m) ->
      exists data,
        run self x1 x2 x3 x4 x5 x6 x7 x8 x9 get_uncertainty get_winds
        = Popen [path_to_bin self] data
            (fun out => of_result (_read_output out))).
Proof.
  intros Hn ns. unfold run.
  rewrite (run_request_lists self _ _ _ _ _ _ _ _ _ _ _ _ _ _ _ _ _ _ _ _ Hn).
  destruct (decide _) as [Hsize|Hsize]; split.
  - intros (n & m & Hin & Him & Hnm). exfalso. apply Hnm.
    apply lengths_size_one in Hsize.
    assert (Hall : Forall (fun k => k = length l1) ns)
      by (by constructor).
    rewrite List.Forall_forall in Hall.
    by rewrite (Hall n Hin), (Hall m Him).
  - eauto.
  - done.
  - intros Hall. exfalso. apply Hsize, lengths_size_one.
    repeat constructor; apply Hall; subst ns; simpl; tauto.
Qed.


(** C8.  The two flags are the eleventh and the twelfth line of the
    request: T or F for [get_winds], then T or F for
    [get_uncertainty]. *)
Theorem run_flag_lines (self : MCM)
    (x1 x2 x3 x4 x5 x6 x7 x8 x9 : pyobj)
    (l1 l2 l3 l4 l5 l6 l7 l8 l9 : list scalar) (n : nat)
    (get_uncertainty get_winds : bool) :
  str_of_float_is_token ->
  normalised [x1; x2; x3; x4; x5; x6; x7; x8; x9]
             [l1; l2; l3; l4; l5; l6; l7; l8; l9] ->
  Forall (fun l => length l = n) [l1; l2; l3; l4; l5; l6; l7; l8; l9] ->
  exists data,
    run self x1 x2 x3 x4 x5 x6 x7 x8 x9 get_uncertainty get_winds
    = Popen [path_to_bin self] data (fun out => of_result (_read_output out))
    /\ nth_error (split_on "010" data) 10
       = Some (if get_winds then "T" else "F")
    /\ nth_error (split_on "010" data) 11
       = Some (if get_uncertainty then "T" else "F").
Proof.
  intros Hf Hn Hlen.
  exists (unlines (request_lines self n l1 l2 l3 l4 l5 l6 l7 l8 l9
                     get_winds get_uncertainty)).
  split.
  - unfold run.
    rewrite (run_request_lists self _ _ _ _ _ _ _ _ _ _ _ _ _ _ _ _ _ _ _ _ Hn).
    repeat (apply Forall_cons in Hlen as [-> Hlen]).
    destruct (decide _) as [_|Hsize]; [done|].
    exfalso. apply Hsize, lengths_size_one. by repeat constructor.
  - unfold request_lines.
    change [?a0; ?a1; ?a2; ?a3; ?a4; ?a5; ?a6; ?a7; ?a8; ?a9; ?a10; ?a11;
            ?a12; ?a13]
      with ([a0; a1; a2; a3; a4; a5; a6; a7; a8; a9; a10; a11]
            ++ [a12; a13]).
    rewrite unlines_app, split_on_unlines_app.
    + by destruct get_winds, get_uncertainty.
    + repeat (constructor;
              [first [ by apply number_line_one_line
                     | apply no_space_contains, eq_refl;
                       apply is_token_no_space, str_int_token
                     | by destruct get_winds
                     | by destruct get_uncertainty ]|]).
      constructor.
Qed.

(** C10.  Nine inputs that normalise to empty lists pass the length
    check: [run] raises nothing and starts the executable on the line
    [0], nine empty lines, the two flags and the two directories. *)
Theorem run_empty_inputs (self : MCM)
    (x1 x2 x3 x4 x5 x6 x7 x8 x9 : pyobj)
    (get_uncertainty get_winds : bool) :
  normalised [x1; x2; x3; x4; x5; x6; x7; x8; x9]
             [[]; []; []; []; []; []; []; []; []] ->
  run self x1 x2 x3 x4 x5 x6 x7 x8 x9 get_uncertainty get_winds
  = Popen [path_to_bin self]
      ("0" ++ LF ++ str_mul LF 9
       ++ fortran_bool get_winds ++ LF
       ++ fortran_bool get_uncertainty ++ LF
       ++ data_dtm self ++ LF ++ data_um self ++ LF)%string
      (fun out => of_result (_read_output out)).
Proof.
  intros Hn. unfold run.
  rewrite (run_request_lists self _ _ _ _ _ _ _ _ _ _ _ _ _ _ _ _ _ _ _ _ Hn).
  destruct (decide _) as [_|Hsize]; [done|].
  exfalso. apply Hsize, lengths_size_one. by repeat constructor.
Qed.

End RunClaims.

(** ** The claims on double-precision floats *)

Import Binary64 Binary64Facts.

(** The specification's two parser examples: 25 fields [1.0] for one
    point, 25 fields [[1.0, 2.0]] for two. *)
Lemma read_output_chunks_witness :
  _read_output one_point = ok (record_of (fun _ => Scalar one))
  /\ _read_output two_points = ok (record_of (fun _ => Seq [one; two])).
Proof.
  split.
  - refine (proj1 (read_output_chunks (H := binary64) one_point one (repeat one 25) 1
                     _ _ _ _)).
    + apply reads_as_values. vm_compute. reflexivity.
    + reflexivity.
    + lia.
    + simpl. lia.
  - refine (proj1 (read_output_chunks (H := binary64) two_points two
                     (concat (repeat [one; two] 25)) 2 _ _ _ _)).
    + apply reads_as_values. vm_compute. reflexivity.
    + reflexivity.
    + lia.
    + simpl. lia.
Defined.

(** C4 fails on the code: the count 2 with one value after it, 2 tokens
    where 51 are due, and the parser returns a record. *)
Lemma read_output_too_few_returns :
  reads_as "2 1.0" [two; one]
  /\ int_of_float two = ok 2%Z
  /\ length (split "2 1.0") < 1 + 25 * 2
  /\ _read_output "2 1.0"
     = ok (record_of (fun i => match i with
                               | O => Seq [one]
                               | _ => Seq []
                               end)).
Proof.
  repeat split.
  - apply reads_as_values. vm_compute. reflexivity.
  - vm_compute. lia.
Qed.

Lemma read_output_too_few_witness :
  _read_output "1 1.0" = raise IndexError
  /\ _read_output "2 1.0"
     = ok (record_of (fun i => Seq (chunk [one] 2 i)))
  /\ length (chunk [one] 2 24) < 2.
Proof.
  split.
  - refine (proj1 (read_output_too_few (H := binary64) "1 1.0" one [one] 1 _ _ _) _).
    + apply reads_as_values. vm_compute. reflexivity.
    + reflexivity.
    + simpl. lia.
    + reflexivity.
  - refine (proj2 (read_output_too_few (H := binary64) "2 1.0" two [one] 2 _ _ _) _).
    + apply reads_as_values. vm_compute. reflexivity.
    + reflexivity.
    + simpl. lia.
    + lia.
Defined.

(** C5 fails on the code: the count 3 with four values after it, and the
    fields of the record hold 3, 1 and 0 values. *)
Lemma read_output_uneven_fields :
  match _read_output "3 1 2 3 4" with
  | inr r =>
      cardinality (altitude r) = Some 3%nat
      /\ cardinality (day_of_year r) = Some 1%nat
      /\ cardinality (local_time r) = Some 0%nat
  | inl _ => False
  end.
Proof. vm_compute. repeat split. Qed.

Lemma read_output_cardinality_witness :
  exists (v0 : spec_float) (vals : list spec_float) (n : Z),
    reads_as two_points (v0 :: vals) /\ int_of_float v0 = ok n /\
    (n = 1%Z ->
     Forall (fun f => cardinality f = None)
       (fields (record_of (fun _ => Seq [one; two])))) /\
    (forall k : nat, n = Z.of_nat k -> k <> 1%nat -> 25 * k <= length vals ->
       Forall (fun f => cardinality f = Some k)
         (fields (record_of (fun _ => Seq [one; two])))) /\
    (forall k : nat, n = Z.of_nat k -> 2 <= k -> length vals < 25 * k ->
       Forall (fun f => exists m : nat, cardinality f = Some m /\ m <= k)
         (fields (record_of (fun _ => Seq [one; two])))
       /\ (0 < length vals ->
           cardinality (altitude (record_of (fun _ => Seq [one; two])))
           <> cardinality (ywind_std (record_of (fun _ => Seq [one; two]))))
       /\ (length vals = 0%nat ->
           Forall (fun f => cardinality f = Some 0%nat)
             (fields (record_of (fun _ => Seq [one; two]))))) /\
    length (fields (record_of (fun _ => Seq [one; two]))) = 25%nat.
Proof.
  apply (read_output_cardinality (H := binary64) two_points).
  reflexivity.
Defined.

Lemma read_output_bad_token_witness :
  _read_output "1 1.0 abc 3.0" = raise ValueError.
Proof.
  apply (read_output_bad_token (H := binary64) "1 1.0 abc 3.0" "abc").
  - vm_compute. tauto.
  - reflexivity.
Defined.

(** C9 fails on the code: 27 tokens after the count 1, the last one no
    float literal, and the parser raises. *)
Lemma read_output_surplus_junk :
  hd_error (split (one_point ++ "x")) = Some "1"
  /\ float_of_str "1" = Some one
  /\ int_of_float one = ok 1%Z
  /\ 1 + 25 * 1 < length (split (one_point ++ "x"))
  /\ _read_output (one_point ++ "x") = raise ValueError.
Proof.
  repeat split. vm_compute. lia.
Qed.

Lemma read_output_surplus_witness :
  _read_output (one_point ++ "7.5 2.0")
  = ok (record_of (fun _ => Scalar one))
  /\ _read_output (one_point ++ "7.5 2.0") = _read_output one_point.
Proof.
  refine (read_output_surplus (H := binary64) (one_point ++ "7.5 2.0") one_point one
            (repeat one 25) [S754_finite false 8444249301319680 (-50); two] 1
            _ _ _ _).
  - apply reads_as_values. vm_compute. reflexivity.
  - apply reads_as_values. vm_compute. reflexivity.
  - reflexivity.
  - reflexivity.
Defined.

(** C7 fails on the code: the [int] 400 comes back as the list of that
    [int], which prints as 400, where the float 400.0 prints as 400.0. *)
Lemma to_list_keeps_int :
  to_list (Num (PyInt 400)) = ok (PyList [PyInt 400])
  /\ is_pyfloat (PyInt 400) = false
  /\ str (PyInt 400) = "400"
  /\ option_map (fun x => str (PyFloat x)) (float_of_str "400")
     = Some "400.0".
Proof. repeat split. Qed.

Lemma run_checks_lengths_witness :
  run (__init__ "/opt/swami")
    (PyList [PyInt 400; PyInt 500]) (Num (PyInt 45)) (Num (PyInt 12))
    (Num (PyInt 0)) (Num (PyInt 180)) (Num (PyInt 120)) (Num (PyInt 110))
    (Num (PyInt 2)) (Num (PyInt 2)) false false
  = Raise ValueError
  /\ exists data,
       run (__init__ "/opt/swami")
         (PyList [PyInt 400; PyInt 500]) (PyTuple [PyInt 45; PyInt 46])
         (PyList [PyInt 12; PyInt 13]) (PyList [PyInt 0; PyInt 1])
         (PyList [PyInt 180; PyInt 181]) (PyList [PyInt 120; PyInt 121])
         (PyList [PyInt 110; PyInt 111]) (PyList [PyInt 2; PyInt 3])
         (PyList [PyInt 2; PyInt 3]) false false
       = Popen ["/opt/swami/swami.x"] data
           (fun out => of_result (_read_output out)).
Proof.
  split.
  - refine (proj1 (run_checks_lengths (H := binary64) (__init__ "/opt/swami")
                     _ _ _ _ _ _ _ _ _
                     [PyInt 400; PyInt 500] [PyInt 45] [PyInt 12] [PyInt 0]
                     [PyInt 180] [PyInt 120] [PyInt 110] [PyInt 2] [PyInt 2]
                     false false _) _).
    + repeat constructor.
    + exists 2%nat, 1%nat. simpl. intuition lia.
  - refine (proj2 (run_checks_lengths (H := binary64) (__init__ "/opt/swami")
                     _ _ _ _ _ _ _ _ _
                     [PyInt 400; PyInt 500] [PyInt 45; PyInt 46]
                     [PyInt 12; PyInt 13] [PyInt 0; PyInt 1]
                     [PyInt 180; PyInt 181] [PyInt 120; PyInt 121]
                     [PyInt 110; PyInt 111] [PyInt 2; PyInt 3]
                     [PyInt 2; PyInt 3] false false _) _).
    + repeat constructor.
    + simpl. intros n m Hn Hm. intuition lia.
Defined.


Lemma run_flag_lines_witness :
  exists data,
    run (__init__ "/opt/swami")
      (Num (PyFloat one)) (Num (PyInt 45)) (Num (PyInt 12))
      (Num (PyInt 0)) (Num (PyInt 180)) (Num (PyInt 120)) (Num (PyInt 110))
      (Num (PyInt 2)) (Num (PyInt 2)) true false
    = Popen ["/opt/swami/swami.x"] data
        (fun out => of_result (_read_output out))
    /\ nth_error (split_on "010" data) 10 = Some "F"
    /\ nth_error (split_on "010" data) 11 = Some "T".
Proof.
  apply (run_flag_lines (H := binary64) (__init__ "/opt/swami")
           _ _ _ _ _ _ _ _ _
           [PyFloat (H := binary64) one] [PyInt 45] [PyInt 12] [PyInt 0] [PyInt 180]
           [PyInt 120] [PyInt 110] [PyInt 2] [PyInt 2] 1 true false
           binary64_str_of_float_is_token).
  - repeat constructor.
  - repeat constructor.
Defined.

Lemma run_empty_inputs_witness :
  run (__init__ "/opt/swami")
    (PyList []) (PyTuple []) (NdArray (Array1 [])) (PyList []) (PyList [])
    (PyList []) (PyList []) (PyList []) (PyList []) false false
  = Popen ["/opt/swami/swami.x"]
      (unlines ["0"; ""; ""; ""; ""; ""; ""; ""; ""; ""; "F"; "F";
                "/opt/swami/data/"; "/opt/swami/data/um/"])
      (fun out => of_result (_read_output out)).
Proof.
  apply (run_empty_inputs (H := binary64) (__init__ "/opt/swami")).
  repeat constructor.
Defined.

(** ** Further properties of the response parser *)

Section ParserMore.

Context `{FloatImpl}.

Import PyFacts.

Lemma bind_ok_inv {A B} (m : result A) (k : A -> result B) (b : B) :
  bind m k = ok b -> exists a, m = ok a /\ k a = ok b.
Proof. destruct m as [e|a]; [done|]. simpl. eauto. Qed.

(** A text splits into no token exactly when it is blank. *)
Lemma split_blank (s : string) : split s = [] <-> blank s = true.
Proof.
  induction s as [|c s IH]; [done|].
  cbn [blank]. destruct (isspace c) eqn:Hc.
  - by rewrite split_space.
  - split; [|done]. intros Hs. by apply split_nonspace_cons in Hs.
Qed.

(** The tokens either all read as floats, or one of them is no float
    literal and [float] raises its [ValueError]. *)
Lemma read_tokens (toks : list string) :
  (exists vals, map_list py_float toks = ok vals)
  \/ (map_list py_float toks = raise ValueError
      /\ exists t, In t toks /\ float_of_str t = None).
Proof.
  induction toks as [|t toks IH]; [left; by exists []|].
  cbn [map_list]. destruct (float_of_str t) as [v|] eqn:Ht.
  - assert (py_float t = ok v) as -> by (by apply py_float_ok).
    destruct IH as [[vals ->]|[-> (u & Hu & Hnone)]].
    + left. eexists. reflexivity.
    + right. split; [reflexivity|]. exists u. split; [by right|done].
  - assert (py_float t = raise ValueError) as ->
      by (unfold py_float; by rewrite Ht).
    right. split; [reflexivity|]. exists t. split; [by left|done].
Qed.

Lemma reads_as_no_bad_token (out : string) (vals : list float) (t : string) :
  reads_as out vals -> In t (split out) -> float_of_str t <> None.
Proof.
  unfold reads_as. intros Hv Hin.
  induction Hv as [|u v toks vals Hu _ IH]; [done|].
  destruct Hin as [<-|Hin]; [by rewrite Hu|by apply IH].
Qed.

(** The loop with a negative count [- k]: the first round keeps all but
    the last [k] values; what it leaves is at most [k] values, of which
    every later round keeps none. *)
Lemma read_arrays_negative_rest (rounds : nat) (k : positive)
    (values : list float) (arrays : list field) :
  length values <= Pos.to_nat k ->
  read_arrays rounds (Zneg k) values arrays
  = ok (arrays ++ repeat (Seq []) rounds).
Proof.
  revert arrays. induction rounds as [|rounds IH]; intros arrays Hlen.
  - simpl. by rewrite app_nil_r.
  - cbn [read_arrays]. unfold slice_to, slice_from, slice_bound.
    cbn [Z.ltb Z.compare Z.eqb].
    replace (Z.to_nat (Z.of_nat (length values) + Z.neg k)) with 0%nat by lia.
    cbn [firstn skipn bind ok]. rewrite IH by done.
    cbn [repeat]. by rewrite <- app_assoc.
Qed.

Lemma read_arrays_negative (rounds : nat) (k : positive)
    (values : list float) :
  read_arrays (S rounds) (Zneg k) values []
  = ok (Seq (firstn (length values - Pos.to_nat k) values)
        :: repeat (Seq []) rounds).
Proof.
  cbn [read_arrays]. unfold slice_to, slice_from, slice_bound.
  cbn [Z.ltb Z.compare Z.eqb bind ok].
  replace (Z.to_nat (Z.of_nat (length values) + Z.neg k))
    with (length values - Pos.to_nat k)%nat by lia.
  rewrite read_arrays_negative_rest; [done|].
  rewrite length_skipn. lia.
Qed.

(** With float literals for tokens and a count from [int], the parser
    returns a record unless the count is 1 and fewer than 25 values
    follow. *)
Lemma read_output_returns (out : string) (v0 : float) (vals : list float)
    (n : Z) :
  reads_as out (v0 :: vals) ->
  int_of_float v0 = ok n ->
  (n = 1%Z -> 25 <= length vals) ->
  exists r, _read_output out = ok r.
Proof.
  intros Hv Hn Hlen. destruct n as [|p|p].
  - eexists. apply (read_output_record out v0 vals 0 Hv Hn). left. lia.
  - eexists. apply (read_output_record out v0 vals (Pos.to_nat p) Hv).
    + by rewrite positive_nat_Z.
    + destruct (decide (p = 1%positive)) as [->|Hp]; [right; by apply Hlen|].
      left. lia.
  - unfold _read_output.
    apply reads_as_values in Hv. rewrite Hv. cbn [bind ok item nth_error].
    rewrite Hn. cbn [bind ok].
    change (slice_from (v0 :: vals) 1) with vals.
    rewrite read_arrays_negative. eexists. reflexivity.
Qed.

(** X1.  A reply that is empty or all whitespace: the parser raises
    [IndexError], from [values[0]]. *)
Theorem read_output_blank (out : string) :
  blank out = true -> _read_output out = raise IndexError.
Proof.
  intros Hb. unfold _read_output.
  rewrite split_strip. apply split_blank in Hb. by rewrite Hb.
Qed.

(** X2.  A reply of float literals whose count is 0: the parser returns
    the record of 25 empty lists, whatever values follow the count. *)
Theorem read_output_zero_count (out : string) (v0 : float)
    (vals : list float) :
  reads_as out (v0 :: vals) ->
  int_of_float v0 = ok 0%Z ->
  _read_output out = ok (record_of (fun _ => Seq [])).
Proof.
  intros Hv Hn.
  rewrite (read_output_record out v0 vals 0 Hv Hn) by (left; lia).
  reflexivity.
Qed.

(** X3.  A reply of float literals whose count is negative, [- k]: the
    parser raises nothing; the first field is the list of all values but
    the last [k], and the 24 other fields are empty lists. *)
Theorem read_output_negative_count (out : string) (v0 : float)
    (vals : list float) (k : nat) :
  reads_as out (v0 :: vals) ->
  int_of_float v0 = ok (- Z.of_nat k)%Z ->
  1 <= k ->
  _read_output out
  = ok (record_of (fun i => match i with
                            | O => Seq (firstn (length vals - k) vals)
                            | S _ => Seq []
                            end)).
Proof.
  intros Hv Hn Hk. unfold _read_output.
  apply reads_as_values in Hv. rewrite Hv. cbn [bind ok item nth_error].
  rewrite Hn. cbn [bind ok].
  change (slice_from (v0 :: vals) 1) with vals.
  destruct k as [|k]; [lia|].
  change (- Z.of_nat (S k))%Z with (Zneg (Pos.of_succ_nat k)).
  rewrite read_arrays_negative, SuccNat2Pos.id_succ. reflexivity.
Qed.

(** X4.  The parser returns a record exactly when every token is a
    float literal, there is a first one, [int] of it is a count [n], and
    in case [n] is 1 at least 25 values follow it. *)
Theorem read_output_succeeds_iff (out : string) :
  (exists r, _read_output out = ok r)
  <-> exists (v0 : float) (vals : list float) (n : Z),
        reads_as out (v0 :: vals) /\ int_of_float v0 = ok n
        /\ (n = 1%Z -> 25 <= length vals).
Proof.
  split.
  - intros [r Hr]. unfold _read_output in Hr.
    apply bind_ok_inv in Hr as (values & Hv & Hr).
    apply reads_as_values in Hv.
    destruct values as [|v0 vals]; [done|].
    cbn [bind ok item nth_error] in Hr.
    apply bind_ok_inv in Hr as (n & Hn & Hr).
    change (slice_from (v0 :: vals) 1) with vals in Hr.
    apply bind_ok_inv in Hr as (arrays & Ha & _).
    exists v0, vals, n. repeat split; [done|done|].
    intros ->. destruct (le_lt_dec 25 (length vals)) as [|Hlt]; [done|].
    by rewrite read_arrays_one_short in Ha.
  - intros (v0 & vals & n & Hv & Hn & Hlen).
    by apply (read_output_returns out v0 vals n).
Qed.

(** What the parser raises, by cases. *)
Lemma read_output_raise_inv (out : string) (e : exn) :
  _read_output out = raise e ->
  (e = ValueError /\ exists t, In t (split out) /\ float_of_str t = None)
  \/ (e = IndexError
      /\ (blank out = true
          \/ exists (v0 : float) (vals : list float),
               reads_as out (v0 :: vals) /\ int_of_float v0 = ok 1%Z
               /\ length vals < 25))
  \/ (exists (v0 : float) (vals : list float),
        reads_as out (v0 :: vals) /\ int_of_float v0 = raise e).
Proof.
  intros Hr.
  destruct (read_tokens (split out)) as [[values Hv]|[Hv Hbad]].
  + rewrite <- split_strip in Hv. pose proof Hv as Hvals.
    apply reads_as_values in Hvals.
    unfold _read_output in Hr. rewrite Hv in Hr.
    destruct values as [|v0 vals].
    * right. left. injection Hr as <-. split; [done|]. left.
      apply split_blank. unfold reads_as in Hvals. by inversion Hvals.
    * cbn [bind ok item nth_error] in Hr.
      destruct (int_of_float v0) as [e'|n] eqn:Hn.
      { right. right. exists v0, vals. by injection Hr as <-. }
      cbn [bind ok] in Hr.
      change (slice_from (v0 :: vals) 1) with vals in Hr.
      assert (Hone : n = 1%Z /\ length vals < 25).
      { destruct (decide (n = 1%Z)) as [->|Hn1].
        - split; [done|].
          destruct (le_lt_dec 25 (length vals)) as [Hle|]; [|done].
          by rewrite read_arrays_one in Hr.
        - exfalso.
          assert (Hok : exists r, _read_output out = ok r)
            by by apply (read_output_returns out v0 vals n).
          destruct Hok as [r Hok]. unfold _read_output in Hok.
          rewrite Hv in Hok. cbn [bind ok item nth_error] in Hok.
          rewrite Hn in Hok. cbn [bind ok] in Hok.
          change (slice_from (v0 :: vals) 1) with vals in Hok.
          rewrite Hr in Hok. discriminate Hok. }
      destruct Hone as [-> Hlt].
      rewrite read_arrays_one_short in Hr by done.
      right. left. injection Hr as <-. split; [done|]. right.
      by exists v0, vals.
  + left. unfold _read_output in Hr. rewrite split_strip, Hv in Hr.
    by injection Hr as <-.
Qed.

(** X5.  The parser raises [e] exactly in one of three cases: a token is
    no float literal and [e] is [ValueError]; all tokens are float
    literals, and there is none, or the count is 1 with fewer than 25
    values after it, and [e] is [IndexError]; all tokens are float
    literals and [int] of the first value raises [e]. *)
Theorem read_output_raises_iff (out : string) (e : exn) :
  _read_output out = raise e
  <-> (e = ValueError /\ exists t, In t (split out) /\ float_of_str t = None)
      \/ (e = IndexError
          /\ (blank out = true
              \/ exists (v0 : float) (vals : list float),
                   reads_as out (v0 :: vals) /\ int_of_float v0 = ok 1%Z
                   /\ length vals < 25))
      \/ (exists (v0 : float) (vals : list float),
            reads_as out (v0 :: vals) /\ int_of_float v0 = raise e).
Proof.
  split; [apply read_output_raise_inv|].
  intros [[-> (t & Hin & Ht)]|[[-> [Hb|(v0 & vals & Hv & Hn & Hlt)]]
                               |(v0 & vals & Hv & Hn)]].
  - unfold _read_output. rewrite split_strip.
    rewrite (map_list_raise py_float _ t ValueError); [done|done| |].
    + intros y e. apply py_float_raise.
    + unfold py_float. by rewrite Ht.
  - unfold _read_output. rewrite split_strip.
    apply split_blank in Hb. by rewrite Hb.
  - unfold _read_output. apply reads_as_values in Hv. rewrite Hv.
    cbn [bind ok item nth_error]. rewrite Hn. cbn [bind ok].
    change (slice_from (v0 :: vals) 1) with vals.
    by rewrite read_arrays_one_short.
  - unfold _read_output. apply reads_as_values in Hv. rewrite Hv.
    cbn [bind ok item nth_error]. by rewrite Hn.
Qed.

(** X6.  The parser sees the reply only through its tokens: two replies
    with the same tokens, however the whitespace between and around them
    differs, give the same result. *)
Theorem read_output_same_tokens (out out' : string) :
  split out = split out' -> _read_output out = _read_output out'.
Proof.
  intros Hs. unfold _read_output. by rewrite !split_strip, Hs.
Qed.

(** X7.  The parser sees the first token only through [int]: two replies
    of float literals with the same values after the first, whose first
    values have the same integer part (or make [int] raise the same
    exception), give the same result. *)
Theorem read_output_same_count (out out' : string) (v0 v0' : float)
    (vals : list float) :
  reads_as out (v0 :: vals) ->
  reads_as out' (v0' :: vals) ->
  int_of_float v0 = int_of_float v0' ->
  _read_output out = _read_output out'.
Proof.
  intros Hv Hv' Hn. unfold _read_output.
  apply reads_as_values in Hv, Hv'. rewrite Hv, Hv'.
  cbn [bind ok item nth_error]. by rewrite Hn.
Qed.

Lemma concat_chunks (vals : list float) (n k : nat) :
  concat (map (chunk vals n) (seq 0 k)) = firstn (k * n) vals.
Proof.
  induction k as [|k IH]; [done|].
  rewrite seq_S, map_app, concat_app, IH. cbn [map concat plus].
  rewrite app_nil_r. unfold chunk. rewrite take_take_drop.
  f_equal. lia.
Qed.

(** X8.  Where the parser returns a record for a count [n] that is not
    negative, the values of its 25 fields, put end to end in the order
    of the fields, are the first [25 * n] values after the count (all of
    them when there are fewer): values are taken in order, none twice
    and none skipped. *)
Theorem read_output_consumes_prefix (out : string) (v0 : float)
    (vals : list float) (n : nat) :
  reads_as out (v0 :: vals) ->
  int_of_float v0 = ok (Z.of_nat n) ->
  (n = 1%nat -> 25 <= length vals) ->
  exists r,
    _read_output out = ok r
    /\ concat (map field_values (fields r)) = firstn (25 * n) vals.
Proof.
  intros Hv Hn Hlen. eexists. split.
  - apply (read_output_record out v0 vals n Hv Hn).
    destruct (decide (n = 1%nat)) as [->|?]; [right; by apply Hlen|by left].
  - rewrite fields_record_of, map_map, <- concat_chunks.
    f_equal. apply map_ext_in. intros i Hi%in_seq.
    destruct (decide (n = 1%nat)) as [->|Hn1].
    + pose proof (chunk_length vals 1 i ltac:(specialize (Hlen eq_refl); lia))
        as Hc.
      by destruct (chunk vals 1 i) as [|x [|y l]].
    + by rewrite as_field_seq.
Qed.

End ParserMore.

(** ** Further properties of the request *)

Section RunOutcome.

Context `{FloatImpl}.

Import PyFacts PathFacts.

Lemma to_list_raise (x : pyobj) (e : exn) :
  to_list x = raise e -> e = TypeError.
Proof. destruct x; simpl; intros [= <-] || discriminate; done. Qed.

Lemma len_raise (y : pyobj) (e : exn) : len y = raise e -> e = TypeError.
Proof.
  destruct y as [| [|] | | |]; simpl; intros [= <-] || discriminate; done.
Qed.

Lemma to_list_len_ok (x y : pyobj) (n : nat) :
  to_list x = ok y -> len y = ok n -> exists l, y = PyList l.
Proof.
  destruct x as [v|[s|a]|xs|xs|]; simpl; intros [= <-]; try discriminate;
    eauto.
Qed.

Lemma listable_cases (x : pyobj) :
  (exists l, to_list x = ok (PyList l)) \/ unlistable x = true.
Proof. destruct x as [v|[s|a]|xs|xs|]; simpl; eauto. Qed.

Lemma unlistable_not_normalised (x : pyobj) (l : list scalar) :
  unlistable x = true -> to_list x <> ok (PyList l).
Proof. by destruct x as [v|[s|a]|xs|xs|]. Qed.

(** Before the executable is started: either the nine inputs normalise
    to lists, or [run] raises [TypeError]. *)
Lemma run_request_cases (self : MCM)
    (x1 x2 x3 x4 x5 x6 x7 x8 x9 : pyobj) (get_uncertainty get_winds : bool) :
  (exists l1 l2 l3 l4 l5 l6 l7 l8 l9,
     normalised [x1; x2; x3; x4; x5; x6; x7; x8; x9]
                [l1; l2; l3; l4; l5; l6; l7; l8; l9])
  \/ run_request self x1 x2 x3 x4 x5 x6 x7 x8 x9 get_uncertainty get_winds
     = raise TypeError.
Proof.
  unfold run_request.
  repeat match goal with
         | |- _ \/ bind (to_list ?x) _ = _ =>
             let e := fresh "e" in
             let y := fresh "y" in
             let E := fresh "E" in
             destruct (to_list x) as [e|y] eqn:E;
             [ right; by rewrite (to_list_raise _ _ E) | cbn [bind] ]
         end.
  repeat match goal with
         | |- _ \/ bind (len ?y) _ = _ =>
             let e := fresh "e" in
             let n := fresh "n" in
             let E := fresh "E" in
             destruct (len y) as [e|n] eqn:E;
             [ right; by rewrite (len_raise _ _ E) | cbn [bind] ]
         end.
  left.
  repeat match goal with
         | Hx : to_list ?x = inr ?y, Hy : len ?y = inr _ |- _ =>
             destruct (to_list_len_ok x y _ Hx Hy) as [? ->]; clear Hy
         end.
  do 9 eexists. unfold normalised. repeat constructor; eassumption.
Qed.

(** The three ways [run] can go before the reply, by cases on the
    inputs. *)
Lemma run_cases (self : MCM)
    (x1 x2 x3 x4 x5 x6 x7 x8 x9 : pyobj) (get_uncertainty get_winds : bool) :
  (exists l1 l2 l3 l4 l5 l6 l7 l8 l9,
     normalised [x1; x2; x3; x4; x5; x6; x7; x8; x9]
                [l1; l2; l3; l4; l5; l6; l7; l8; l9]
     /\ Forall (fun l => length l = length l1)
          [l2; l3; l4; l5; l6; l7; l8; l9]
     /\ run self x1 x2 x3 x4 x5 x6 x7 x8 x9 get_uncertainty get_winds
        = Popen [path_to_bin self]
            (unlines (request_lines self (length l1)
                        l1 l2 l3 l4 l5 l6 l7 l8 l9
                        get_winds get_uncertainty))
            (fun out => of_result (_read_output out)))
  \/ (exists l1 l2 l3 l4 l5 l6 l7 l8 l9,
        normalised [x1; x2; x3; x4; x5; x6; x7; x8; x9]
                   [l1; l2; l3; l4; l5; l6; l7; l8; l9]
        /\ ~ Forall (fun l => length l = length l1)
               [l2; l3; l4; l5; l6; l7; l8; l9]
        /\ run self x1 x2 x3 x4 x5 x6 x7 x8 x9 get_uncertainty get_winds
           = Raise ValueError)
  \/ ((forall l1 l2 l3 l4 l5 l6 l7 l8 l9,
         ~ normalised [x1; x2; x3; x4; x5; x6; x7; x8; x9]
                      [l1; l2; l3; l4; l5; l6; l7; l8; l9])
      /\ run self x1 x2 x3 x4 x5 x6 x7 x8 x9 get_uncertainty get_winds
         = Raise TypeError).
Proof.
  destruct (run_request_cases self x1 x2 x3 x4 x5 x6 x7 x8 x9
              get_uncertainty get_winds)
    as [(l1 & l2 & l3 & l4 & l5 & l6 & l7 & l8 & l9 & Hn)|Hraise].
  - pose proof (run_request_lists self _ _ _ _ _ _ _ _ _ _ _ _ _ _ _ _ _ _
                  get_uncertainty get_winds Hn) as Hreq.
    destruct (decide _) as [Hsize|Hsize] in Hreq.
    + left. exists l1, l2, l3, l4, l5, l6, l7, l8, l9.
      split; [done|]. split.
      * apply lengths_size_one in Hsize.
        repeat (apply Forall_cons in Hsize as [? Hsize]).
        by repeat constructor.
      * unfold run. by rewrite Hreq.
    + right. left. exists l1, l2, l3, l4, l5, l6, l7, l8, l9.
      split; [done|]. split.
      * intros Hall. apply Hsize, lengths_size_one.
        repeat (apply Forall_cons in Hall as [? Hall]).
        by repeat constructor.
      * unfold run. by rewrite Hreq.
  - right. right. split.
    + intros l1 l2 l3 l4 l5 l6 l7 l8 l9 Hn.
      rewrite (run_request_lists self _ _ _ _ _ _ _ _ _ _ _ _ _ _ _ _ _ _
                 get_uncertainty get_winds Hn) in Hraise.
      by destruct (decide _) in Hraise.
    + unfold run. by rewrite Hraise.
Qed.

Lemma exists_unlistable (x1 x2 x3 x4 x5 x6 x7 x8 x9 : pyobj) :
  Exists (fun x => unlistable x = true) [x1; x2; x3; x4; x5; x6; x7; x8; x9]
  <-> forall l1 l2 l3 l4 l5 l6 l7 l8 l9,
        ~ normalised [x1; x2; x3; x4; x5; x6; x7; x8; x9]
                     [l1; l2; l3; l4; l5; l6; l7; l8; l9].
Proof.
  split.
  - intros Hex l1 l2 l3 l4 l5 l6 l7 l8 l9 Hn. unfold normalised in Hn.
    repeat match goal with
           | Hn : Forall2 _ (_ :: _) (_ :: _) |- _ =>
               apply Forall2_cons in Hn as [? Hn]
           end.
    repeat match goal with
           | Hex : Exists _ (_ :: _) |- _ =>
               apply Exists_cons in Hex as [Hex|Hex];
               [by eapply unlistable_not_normalised|]
           end.
    by apply Exists_nil in Hex.
  - intros Hnone.
    repeat match goal with
           | |- Exists _ (?x :: _) =>
               destruct (listable_cases x) as [[? ?]|?];
               [apply Exists_cons_tl|by apply Exists_cons_hd]
           end.
    exfalso. eapply Hnone. unfold normalised. repeat constructor; eassumption.
Qed.

(** X10.  [run] starts a process only when the nine inputs normalise to
    lists of one length; the process is then the executable of the
    object alone, its input is the request made of those lists, and what
    follows is the parse of the reply. *)
Theorem run_popen_inv (self : MCM)
    (x1 x2 x3 x4 x5 x6 x7 x8 x9 : pyobj) (get_uncertainty get_winds : bool)
    (args : list string) (data : string) (k : string -> outcome MCMOutput) :
  run self x1 x2 x3 x4 x5 x6 x7 x8 x9 get_uncertainty get_winds
  = Popen args data k ->
  exists l1 l2 l3 l4 l5 l6 l7 l8 l9,
    normalised [x1; x2; x3; x4; x5; x6; x7; x8; x9]
               [l1; l2; l3; l4; l5; l6; l7; l8; l9]
    /\ Forall (fun l => length l = length l1)
         [l2; l3; l4; l5; l6; l7; l8; l9]
    /\ args = [path_to_bin self]
    /\ data = unlines (request_lines self (length l1)
                         l1 l2 l3 l4 l5 l6 l7 l8 l9
                         get_winds get_uncertainty)
    /\ k = (fun out => of_result (_read_output out)).
Proof.
  intros Hrun.
  destruct (run_cases self x1 x2 x3 x4 x5 x6 x7 x8 x9
              get_uncertainty get_winds)
    as [(l1 & l2 & l3 & l4 & l5 & l6 & l7 & l8 & l9 & Hn & Hlen & Hp)
       |[(l1 & l2 & l3 & l4 & l5 & l6 & l7 & l8 & l9 & _ & _ & Hr)
        |[_ Hr]]];
    rewrite Hrun in *; try discriminate.
  exists l1, l2, l3, l4, l5, l6, l7, l8, l9.
  by injection Hp as -> -> ->.
Qed.

(** X11.  [run] raises [ValueError] exactly when the nine inputs
    normalise to lists that are not all of one length. *)
Theorem run_value_error_iff (self : MCM)
    (x1 x2 x3 x4 x5 x6 x7 x8 x9 : pyobj) (get_uncertainty get_winds : bool) :
  run self x1 x2 x3 x4 x5 x6 x7 x8 x9 get_uncertainty get_winds
  = Raise ValueError
  <-> exists l1 l2 l3 l4 l5 l6 l7 l8 l9,
        normalised [x1; x2; x3; x4; x5; x6; x7; x8; x9]
                   [l1; l2; l3; l4; l5; l6; l7; l8; l9]
        /\ ~ Forall (fun l => length l = length l1)
               [l2; l3; l4; l5; l6; l7; l8; l9].
Proof.
  split.
  - intros Hrun.
    destruct (run_cases self x1 x2 x3 x4 x5 x6 x7 x8 x9
                get_uncertainty get_winds)
      as [(l1 & l2 & l3 & l4 & l5 & l6 & l7 & l8 & l9 & _ & _ & Hp)
         |[(l1 & l2 & l3 & l4 & l5 & l6 & l7 & l8 & l9 & Hn & Hlen & _)
          |[_ Hr]]];
      try (rewrite Hrun in *; discriminate).
    by exists l1, l2, l3, l4, l5, l6, l7, l8, l9.
  - intros (l1 & l2 & l3 & l4 & l5 & l6 & l7 & l8 & l9 & Hn & Hlen).
    unfold run.
    rewrite (run_request_lists self _ _ _ _ _ _ _ _ _ _ _ _ _ _ _ _ _ _
               get_uncertainty get_winds Hn).
    destruct (decide _) as [Hsize|_]; [|done].
    exfalso. apply Hlen. apply lengths_size_one in Hsize.
    repeat (apply Forall_cons in Hsize as [? Hsize]).
    by repeat constructor.
Qed.

(** X12.  [run] raises [TypeError] exactly when one of the nine inputs
    is an array of dimension 0 or an object that is neither a number nor
    iterable; and [run] then starts no process. *)
Theorem run_type_error_iff (self : MCM)
    (x1 x2 x3 x4 x5 x6 x7 x8 x9 : pyobj) (get_uncertainty get_winds : bool) :
  run self x1 x2 x3 x4 x5 x6 x7 x8 x9 get_uncertainty get_winds
  = Raise TypeError
  <-> Exists (fun x => unlistable x = true)
        [x1; x2; x3; x4; x5; x6; x7; x8; x9].
Proof.
  rewrite exists_unlistable.
  destruct (run_cases self x1 x2 x3 x4 x5 x6 x7 x8 x9
              get_uncertainty get_winds)
    as [(l1 & l2 & l3 & l4 & l5 & l6 & l7 & l8 & l9 & Hn & _ & Hr)
       |[(l1 & l2 & l3 & l4 & l5 & l6 & l7 & l8 & l9 & Hn & _ & Hr)
        |[Hnone Hr]]];
    rewrite Hr; split; try done.
  - intros Hnone. by apply Hnone in Hn.
  - intros Hnone. by apply Hnone in Hn.
Qed.

(** X13.  [run] sees its nine inputs only through the lists they
    normalise to: a number, the list, the tuple and the array of
    dimension 1 that hold the same numbers give the same call. *)
Theorem run_same_lists (self : MCM)
    (x1 x2 x3 x4 x5 x6 x7 x8 x9 : pyobj)
    (z1 z2 z3 z4 z5 z6 z7 z8 z9 : pyobj)
    (l1 l2 l3 l4 l5 l6 l7 l8 l9 : list scalar)
    (get_uncertainty get_winds : bool) :
  normalised [x1; x2; x3; x4; x5; x6; x7; x8; x9]
             [l1; l2; l3; l4; l5; l6; l7; l8; l9] ->
  normalised [z1; z2; z3; z4; z5; z6; z7; z8; z9]
             [l1; l2; l3; l4; l5; l6; l7; l8; l9] ->
  run self x1 x2 x3 x4 x5 x6 x7 x8 x9 get_uncertainty get_winds
  = run self z1 z2 z3 z4 z5 z6 z7 z8 z9 get_uncertainty get_winds.
Proof.
  intros Hx Hz. unfold run.
  by rewrite (run_request_lists self _ _ _ _ _ _ _ _ _ _ _ _ _ _ _ _ _ _
                get_uncertainty get_winds Hx),
             (run_request_lists self _ _ _ _ _ _ _ _ _ _ _ _ _ _ _ _ _ _
                get_uncertainty get_winds Hz).
Qed.

End RunOutcome.

(** ** Further properties of the paths and of the request text *)

Module TokenFacts.

Import PyFacts PathFacts.

(** Whitespace between two texts separates their tokens. *)
Lemma split_app_space (a : string) (c : ascii) (b : string) :
  isspace c = true ->
  split (a ++ String c b)%string = split a ++ split b.
Proof.
  intros Hc. destruct a as [|x a]; [by rewrite app_empty, split_space|].
  revert x. induction a as [|y a IH]; intros x.
  - rewrite app_cons, app_empty, split_two, split_one, Hc, split_space by done.
    by destruct (isspace x).
  - rewrite !app_cons, !split_two. specialize (IH y).
    rewrite app_cons in IH. rewrite IH.
    destruct (isspace x); [done|]. destruct (isspace y) eqn:Hy; [done|].
    pose proof (split_nonspace_cons y a Hy) as Hne.
    by destruct (split (String y a)).
Qed.

(** The tokens of a text made of lines are the tokens of its lines. *)
Lemma split_unlines (ls : list string) :
  split (unlines ls) = concat (map split ls).
Proof.
  induction ls as [|l ls IH]; [done|].
  cbn [unlines map concat]. by rewrite app_LF, split_app_space, IH.
Qed.

Lemma no_space_path_join (a b : string) :
  no_space a = true -> no_space b = true -> no_space (path_join a b) = true.
Proof.
  intros Ha Hb. unfold path_join. destruct a as [|x a]; [done|].
  destruct (endswith _ _); by rewrite ?no_space_app, Ha, Hb.
Qed.

(** With no whitespace in the directory of the module, the two data
    directories are tokens. *)
Lemma data_dirs_tokens (pwd : string) :
  no_space pwd = true ->
  is_token (data_dtm (__init__ pwd)) = true
  /\ is_token (data_um (__init__ pwd)) = true.
Proof.
  intros Hpwd. cbn [__init__ data_dtm data_um].
  split; apply is_token_app_r; try done;
    repeat apply no_space_path_join; done.
Qed.

End TokenFacts.

Section RequestText.

Context `{FloatImpl}.

Import PyFacts PathFacts TokenFacts.

(** X14.  For a directory [pwd] of the module, with [base] standing for
    [pwd] ended by one [/]: the executable is [base] then [swami.x], the
    data directory [base] then [data/], and the second data directory
    [base] then [data/um/]. *)
Theorem init_paths (pwd : string) :
  pwd <> EmptyString ->
  let base := if endswith pwd "/" then pwd else (pwd ++ "/")%string in
  path_to_bin (__init__ pwd) = (base ++ "swami.x")%string
  /\ path_to_data (__init__ pwd) = (base ++ "data")%string
  /\ data_dtm (__init__ pwd) = (base ++ "data/")%string
  /\ data_um (__init__ pwd) = (base ++ "data/um/")%string.
Proof.
  intros Hpwd base.
  assert (Hjoin : forall b, path_join pwd b = (base ++ b)%string).
  { intros b. subst base. unfold path_join.
    destruct pwd as [|x p]; [done|].
    destruct (endswith _ _); [done|]. by rewrite app_assoc_str. }
  destruct (data_dirs pwd) as (_ & _ & Hum). rewrite Hum.
  cbn [__init__ path_to_bin path_to_data data_dtm].
  rewrite !Hjoin. by rewrite !app_assoc_str.
Qed.

(** X15.  Read as whitespace-separated tokens, the request for nine
    lists of [n] numbers is the count, the [9 * n] numbers input by
    input, the two flags and the two directories, [9 * n + 5] tokens in
    all; this needs [str] of a float to be one token and no whitespace
    in the directory of the module. *)
Theorem run_request_tokens (pwd : string)
    (x1 x2 x3 x4 x5 x6 x7 x8 x9 : pyobj)
    (l1 l2 l3 l4 l5 l6 l7 l8 l9 : list scalar) (n : nat)
    (get_uncertainty get_winds : bool) :
  str_of_float_is_token ->
  no_space pwd = true ->
  normalised [x1; x2; x3; x4; x5; x6; x7; x8; x9]
             [l1; l2; l3; l4; l5; l6; l7; l8; l9] ->
  Forall (fun l => length l = n) [l1; l2; l3; l4; l5; l6; l7; l8; l9] ->
  let self := __init__ pwd in
  exists data,
    run self x1 x2 x3 x4 x5 x6 x7 x8 x9 get_uncertainty get_winds
    = Popen [path_to_bin self] data (fun out => of_result (_read_output out))
    /\ split data
       = str_int (Z.of_nat n)
         :: concat (map (map str) [l1; l2; l3; l4; l5; l6; l7; l8; l9])
         ++ [fortran_bool get_winds; fortran_bool get_uncertainty;
             data_dtm self; data_um self]
    /\ length (split data) = (9 * n + 5)%nat.
Proof.
  intros Hf Hpwd Hn Hlen self.
  destruct (data_dirs_tokens pwd Hpwd) as [Hdtm Hum].
  assert (Hsplit :
    split (unlines (request_lines self n l1 l2 l3 l4 l5 l6 l7 l8 l9
                      get_winds get_uncertainty))
    = str_int (Z.of_nat n)
      :: concat (map (map str) [l1; l2; l3; l4; l5; l6; l7; l8; l9])
      ++ [fortran_bool get_winds; fortran_bool get_uncertainty;
          data_dtm self; data_um self]).
  { rewrite split_unlines. unfold request_lines. cbn [map concat].
    rewrite !number_line_tokens by done.
    rewrite (split_token (str_int _)) by apply str_int_token.
    rewrite (split_token (data_dtm self)), (split_token (data_um self))
      by done.
    rewrite !(split_token (fortran_bool _))
      by (by destruct get_winds, get_uncertainty).
    rewrite app_nil_r. cbn [app]. by rewrite <- !app_assoc. }
  eexists. split; [|split; [exact Hsplit|]].
  - unfold run.
    rewrite (run_request_lists self _ _ _ _ _ _ _ _ _ _ _ _ _ _ _ _ _ _
               get_uncertainty get_winds Hn).
    repeat (apply Forall_cons in Hlen as [-> Hlen]).
    destruct (decide _) as [_|Hsize]; [done|].
    exfalso. apply Hsize, lengths_size_one. by repeat constructor.
  - rewrite Hsplit. cbn [length map concat].
    repeat (apply Forall_cons in Hlen as [? Hlen]).
    rewrite !length_app, !length_map. simpl. lia.
Qed.

End RequestText.

(** ** The further properties on double-precision floats *)

Lemma read_output_blank_witness :
  _read_output (H := binary64) (" " ++ LF ++ "  ") = raise IndexError.
Proof.
  apply (read_output_blank (H := binary64)). reflexivity.
Defined.

Lemma read_output_zero_count_witness :
  _read_output "0 1.0 2.0" = ok (record_of (fun _ => Seq [])).
Proof.
  apply (read_output_zero_count (H := binary64) "0 1.0 2.0"
           (S754_zero false) [one; two]).
  - apply reads_as_values. vm_compute. reflexivity.
  - reflexivity.
Defined.

Lemma read_output_negative_count_witness :
  _read_output "-1 1.0 2.0 1.0"
  = ok (record_of (fun i => match i with
                            | O => Seq [one; two]
                            | S _ => Seq []
                            end)).
Proof.
  apply (read_output_negative_count (H := binary64) "-1 1.0 2.0 1.0"
           (S754_finite true 4503599627370496 (-52)) [one; two; one] 1).
  - apply reads_as_values. vm_compute. reflexivity.
  - reflexivity.
  - lia.
Defined.

Lemma read_output_same_tokens_witness :
  _read_output (H := binary64)
    ("2" ++ LF ++ str_mul ("1.0   2.0" ++ LF) 25)
  = _read_output two_points.
Proof.
  apply (read_output_same_tokens (H := binary64)).
  vm_compute. reflexivity.
Defined.

Lemma read_output_same_count_witness :
  _read_output "2.7 1.0 2.0" = _read_output "2 1.0 2.0".
Proof.
  apply (read_output_same_count (H := binary64) "2.7 1.0 2.0" "2 1.0 2.0"
           (S754_finite false 6079859496950170 (-51)) two [one; two]).
  - apply reads_as_values. vm_compute. reflexivity.
  - apply reads_as_values. vm_compute. reflexivity.
  - reflexivity.
Defined.

Lemma run_popen_inv_witness :
  exists l1 l2 l3 l4 l5 l6 l7 l8 l9 : list scalar,
    normalised
      [Num (PyInt 400); PyList [PyInt 45]; PyTuple [PyInt 12];
       NdArray (Array1 [NpInt64 0]); Num (PyInt 180); Num (PyInt 120);
       Num (PyInt 110); Num (PyInt 2); Num (PyInt 2)]
      [l1; l2; l3; l4; l5; l6; l7; l8; l9]
    /\ Forall (fun l => length l = length l1)
         [l2; l3; l4; l5; l6; l7; l8; l9]
    /\ ["/opt/swami/swami.x"] = [path_to_bin (__init__ "/opt/swami")]
    /\ unlines ["1"; "400"; "45"; "12"; "0"; "180"; "120"; "110"; "2"; "2";
                "F"; "T"; "/opt/swami/data/"; "/opt/swami/data/um/"]
       = unlines (request_lines (__init__ "/opt/swami") (length l1)
                    l1 l2 l3 l4 l5 l6 l7 l8 l9 false true)
    /\ (fun out => of_result (_read_output out))
       = (fun out => of_result (_read_output out)).
Proof.
  apply (run_popen_inv (H := binary64) (__init__ "/opt/swami")
           (Num (PyInt 400)) (PyList [PyInt 45]) (PyTuple [PyInt 12])
           (NdArray (Array1 [NpInt64 0])) (Num (PyInt 180))
           (Num (PyInt 120)) (Num (PyInt 110)) (Num (PyInt 2))
           (Num (PyInt 2)) true false).
  reflexivity.
Defined.

Lemma run_same_lists_witness :
  run (__init__ "/opt/swami")
    (Num (PyInt 400)) (PyTuple [PyInt 45]) (NdArray (Array1 [NpInt64 12]))
    (Num (PyInt 0)) (Num (PyInt 180)) (Num (PyInt 120)) (Num (PyInt 110))
    (Num (PyInt 2)) (Num (PyInt 2)) false false
  = run (__init__ "/opt/swami")
      (PyList [PyInt 400]) (PyList [PyInt 45]) (PyList [PyInt 12])
      (PyList [PyInt 0]) (PyList [PyInt 180]) (PyList [PyInt 120])
      (PyList [PyInt 110]) (PyList [PyInt 2]) (PyList [PyInt 2]) false false.
Proof.
  apply (run_same_lists (H := binary64) (__init__ "/opt/swami")
           _ _ _ _ _ _ _ _ _ _ _ _ _ _ _ _ _ _
           [PyInt 400] [PyInt 45] [PyInt 12] [PyInt 0] [PyInt 180]
           [PyInt 120] [PyInt 110] [PyInt 2] [PyInt 2]).
  - repeat constructor.
  - repeat constructor.
Defined.

Lemma init_paths_witness :
  path_to_bin (__init__ "/opt/swami") = "/opt/swami/swami.x"
  /\ path_to_data (__init__ "/opt/swami") = "/opt/swami/data"
  /\ data_dtm (__init__ "/opt/swami") = "/opt/swami/data/"
  /\ data_um (__init__ "/opt/swami") = "/opt/swami/data/um/".
Proof.
  apply (init_paths "/opt/swami"). discriminate.
Defined.

Lemma run_request_tokens_witness :
  exists data,
    run (__init__ "/opt/swami")
      (PyList [PyInt 400; PyInt 500]) (PyList [PyFloat one; PyFloat two])
      (PyList [PyInt 12; PyInt 13]) (PyList [PyInt 0; PyInt 1])
      (PyList [PyInt 180; PyInt 181]) (PyList [PyInt 120; PyInt 121])
      (PyList [PyInt 110; PyInt 111]) (PyList [PyInt 2; PyInt 3])
      (PyList [PyInt 2; PyInt 3]) false true
    = Popen ["/opt/swami/swami.x"] data
        (fun out => of_result (_read_output out))
    /\ split data
       = ["2"; "400"; "500"; "1.0"; "2.0"; "12"; "13"; "0"; "1";
          "180"; "181"; "120"; "121"; "110"; "111"; "2"; "3"; "2"; "3";
          "T"; "F"; "/opt/swami/data/"; "/opt/swami/data/um/"]
    /\ length (split data) = 23%nat.
Proof.
  apply (run_request_tokens (H := binary64) "/opt/swami"
           _ _ _ _ _ _ _ _ _
           [PyInt 400; PyInt 500]
           [PyFloat (H := binary64) one; PyFloat (H := binary64) two]
           [PyInt 12; PyInt 13] [PyInt 0; PyInt 1]
           [PyInt 180; PyInt 181] [PyInt 120; PyInt 121]
           [PyInt 110; PyInt 111] [PyInt 2; PyInt 3] [PyInt 2; PyInt 3]
           2 false true binary64_str_of_float_is_token eq_refl).
  - repeat constructor.
  - repeat constructor.
Defined.

Lemma read_output_consumes_prefix_witness :
  exists r,
    _read_output (two_points ++ "7.5") = ok r
    /\ concat (map field_values (fields r))
       = concat (repeat [one; two] 25).
Proof.
  apply (read_output_consumes_prefix (H := binary64) (two_points ++ "7.5")
           two (concat (repeat [one; two] 25)
                ++ [S754_finite false 8444249301319680 (-50)]) 2).
  - apply reads_as_values. vm_compute. reflexivity.
  - reflexivity.
  - discriminate.
Defined.

(** X9.  On doubles the parser raises [OverflowError] exactly when all
    tokens are float literals and the first value is an infinity, it
    raises [ValueError] exactly when a token is no float literal or all
    are and the first value is a nan, and it never raises [TypeError]. *)
Theorem read_output_binary64_errors (out : string) :
  (_read_output (H := binary64) out = raise OverflowError
   <-> exists s vals, reads_as out (S754_infinity s :: vals))
  /\ (_read_output (H := binary64) out = raise ValueError
      <-> (exists t, In t (split out) /\ of_str t = None)
          \/ exists vals, reads_as out (S754_nan :: vals))
  /\ _read_output (H := binary64) out <> raise TypeError.
Proof.
  assert (Hint : forall v0 vals e,
             reads_as (H := binary64) out (v0 :: vals) ->
             int_of_float v0 = raise e ->
             _read_output out = raise e).
  { intros v0 vals e Hv Hn. unfold _read_output.
    apply reads_as_values in Hv. rewrite Hv.
    cbn [bind ok item nth_error]. by rewrite Hn. }
  repeat split.
  - intros [[? _]|[[? _]|(v0 & vals & Hv & Hn)]]%read_output_raise_inv;
      try discriminate.
    destruct v0 as [s|s| |s m e]; try discriminate. by exists s, vals.
  - intros (s & vals & Hv). by apply (Hint (S754_infinity s) vals).
  - intros [[_ Hbad]|[[? _]|(v0 & vals & Hv & Hn)]]%read_output_raise_inv;
      try discriminate; [by left|].
    destruct v0 as [s|s| |s m e]; try discriminate. right. by exists vals.
  - intros [(t & Hin & Ht)|(vals & Hv)]; [|by apply (Hint S754_nan vals)].
    unfold _read_output. rewrite PyFacts.split_strip.
    rewrite (PyFacts.map_list_raise py_float _ t ValueError); [done|done| |].
    + intros y e. apply py_float_raise.
    + unfold py_float. simpl. by rewrite Ht.
  - intros [[? _]|[[? _]|(v0 & vals & Hv & Hn)]]%read_output_raise_inv;
      try discriminate.
    by destruct v0 as [s|s| |s m e].
Qed.
